(** * ChatLanguageModels: the prompt / response / persistence cycle

    A shallow embedding of [ChatLanguageModels.py].  The program is a PyQt
    window over three collaborators: the [sqlite3] database file holding the
    single table [history], the completion provider [g4f.ChatCompletion.create],
    and the Qt event loop that calls the slots of [ChatApp].

    - Python [str] is [string]; a [dict] with the four fixed keys of a history
      entry is the record [Message]; a row of the table is a 4-tuple.
    - The file system is a finite map from paths to the rows of the [history]
      table of the database stored there, in rowid order.  Directories are not
      represented.
    - Every answer of the environment (the text a dialog returns, the button
      pressed in a message box, the clock, the outcome of the provider call) is
      an argument of the slot or of the event that consumes it.
    - An exception that leaves a slot is the [Raise] result. *)

From Stdlib Require Import Ascii.
From stdpp Require Import gmap strings list fin_maps.

Local Open Scope string_scope.
Local Open Scope list_scope.

(** ** Python values *)

(** Truth value of an attribute that is [None] or a [str]. *)
Definition truthy (v : option string) : bool :=
  match v with
  | None => false
  | Some "" => false
  | Some _ => true
  end.

(** Truth value of a [str]. *)
Definition nonempty (s : string) : bool :=
  match s with
  | "" => false
  | _ => true
  end.

(** The two line feeds [CustomTextEdit.write] puts after every text. *)
Definition LF : string := String "010"%char "".

(** [list(s)] on a [str]: its characters, each a [str] of length one. *)
Fixpoint list_of_str (s : string) : list string :=
  match s with
  | "" => []
  | String ch rest => String ch "" :: list_of_str rest
  end.

(** Outcome of a call that either returns or raises. *)
Inductive exn :=
| AttributeError (msg : string)
| OperationalError (msg : string).

Inductive result (A : Type) :=
| Ok (a : A)
| Raise (e : exn).
Arguments Ok {A} a.
Arguments Raise {A} e.

Definition bind {A B : Type} (r : result A) (k : A -> result B) : result B :=
  match r with
  | Ok a => k a
  | Raise e => Raise e
  end.

(** ** [os.path] (POSIX flavour) *)
Module OsPath.

Definition startswith_sep (s : string) : bool :=
  match s with
  | String "/"%char _ => true
  | _ => false
  end.

Fixpoint endswith_sep (s : string) : bool :=
  match s with
  | "" => false
  | String ch "" => if Ascii.eqb ch "/"%char then true else false
  | String _ rest => endswith_sep rest
  end.

(** [os.path.join(a, b)]. *)
Definition join (a b : string) : string :=
  if startswith_sep b then b
  else if negb (nonempty a) || endswith_sep a then a +:+ b
  else a +:+ "/" +:+ b.

End OsPath.

(** ** The [history] table behind [sqlite3] *)
Module Sqlite.

(** A row [(date, role, content, response)]. *)
Definition Row : Type := string * string * string * string.

(** [CREATE TABLE IF NOT EXISTS history (...)] on a connection to [path];
    [sqlite3.connect] has made the file when it was missing. *)
Definition create_table_if_not_exists (path : string)
    (fs : gmap string (list Row)) : gmap string (list Row) :=
  match fs !! path with
  | Some _ => fs
  | None => <[path := []]> fs
  end.

(** [SELECT * FROM history] followed by [fetchall()]. *)
Definition select_all (path : string) (fs : gmap string (list Row))
    : result (list Row) :=
  match fs !! path with
  | Some rows => Ok rows
  | None => Raise (OperationalError "no such table: history")
  end.

(** [INSERT INTO history VALUES (?, ?, ?, ?)] and the commit. *)
Definition insert (path : string) (row : Row) (fs : gmap string (list Row))
    : result (gmap string (list Row)) :=
  match fs !! path with
  | Some rows => Ok (<[path := rows ++ [row]]> fs)
  | None => Raise (OperationalError "no such table: history")
  end.

(** [DELETE FROM history] and the commit. *)
Definition delete_all (path : string) (fs : gmap string (list Row))
    : result (gmap string (list Row)) :=
  match fs !! path with
  | Some _ => Ok (<[path := []]> fs)
  | None => Raise (OperationalError "no such table: history")
  end.

End Sqlite.

(** ** History entries and the model table *)

(** A [dict] with the keys ["date"], ["role"], ["content"], ["response"]. *)
Record Message := mkMessage {
  date : string;
  role : string;
  content : string;
  response : string
}.

(** The comprehension of [load_database_clicked]: one entry per fetched row. *)
Definition message_of_row (row : Sqlite.Row) : Message :=
  let '(d, r, c, a) := row in
  {| date := d; role := r; content := c; response := a |}.

(** The parameter tuple of the [INSERT]. *)
Definition row_of_message (m : Message) : Sqlite.Row :=
  (date m, role m, content m, response m).

(** The six provider models the window offers. *)
Inductive Model :=
| gpt_35_turbo
| gpt_35_turbo_0613
| gpt_4
| gemini
| blackbox
| mixtral_8x7b.

(** The entries of the combo box: the keys of [models], in order. *)
Inductive ModelKey :=
| key_gpt_35_turbo
| key_gpt_35_turbo_0613
| key_gpt_4
| key_gemini
| key_blackbox
| key_mixtral_8x7b.

Definition key_text (k : ModelKey) : string :=
  match k with
  | key_gpt_35_turbo => "gpt-3.5 turbo"
  | key_gpt_35_turbo_0613 => "gpt-3.5 turbo_0613"
  | key_gpt_4 => "gpt-4"
  | key_gemini => "gemini"
  | key_blackbox => "blackbox"
  | key_mixtral_8x7b => "mixtral 8x7b"
  end.

(** The dictionary [models], indexed by the entry the combo box shows. *)
Definition models (k : ModelKey) : Model :=
  match k with
  | key_gpt_35_turbo => gpt_35_turbo
  | key_gpt_35_turbo_0613 => gpt_35_turbo_0613
  | key_gpt_4 => gpt_4
  | key_gemini => gemini
  | key_blackbox => blackbox
  | key_mixtral_8x7b => mixtral_8x7b
  end.

(** ** [CustomTextEdit] *)
Module CustomTextEdit.

(** The document, as the texts inserted into it so far.  The slots that
    write move the cursor to the end, so an insertion is an append. *)
Definition t : Type := list string.

(** [write(text)]: inserts [text + '\n\n']. *)
Definition write (text : string) (doc : t) : t :=
  doc ++ [text +:+ LF +:+ LF].

End CustomTextEdit.

(** ** [Worker] *)

(** What [g4f.ChatCompletion.create] does on one call: returns a text or
    raises an exception [e], of which the program reads only [str(e)]. *)
Inductive Completion :=
| Returns (text : string)
| Raises (str_e : string).

(** One call of [g4f.ChatCompletion.create(model, messages, stream=False)]. *)
Record Invocation := mkInvocation {
  inv_model : Model;
  inv_messages : list Message
}.

Module Worker.

Record t := mk {
  model : Model;
  message_history : list Message;
  output_text : CustomTextEdit.t
}.

(** [Worker(model, message_history)].  The worker is given the history list
    of the window; the embedding records the value the list has then, which
    is what the worker sends when it makes its call before the window
    handles a further submit or answer. *)
Definition init (m : Model) (history : list Message) : t :=
  {| model := m; message_history := history; output_text := [] |}.

Definition set_model (m : Model) (w : t) : t :=
  {| model := m; message_history := message_history w;
     output_text := output_text w |}.

(** The call [run] makes. *)
Definition invocation (w : t) : Invocation :=
  {| inv_model := model w; inv_messages := message_history w |}.

Definition error_message (str_e : string) : string :=
  "Error generating response: " +:+ str_e.

(** [run()], given what the provider did: the worker afterwards and the
    list carried by the [finished] signal.  ([update_ui], the second
    signal of the class, has no slot connected to it.) *)
Definition run (outcome : Completion) (w : t) : t * list string :=
  match outcome with
  | Returns response => (w, list_of_str response)
  | Raises str_e =>
      let error_message := error_message str_e in
      ({| model := model w; message_history := message_history w;
          output_text := CustomTextEdit.write error_message (output_text w) |},
       [error_message])
  end.

End Worker.

(** ** [CreateDatabaseDialog] *)

(** A [QMessageBox] shown to the user. *)
Inductive MessageBox :=
| warning (title text : string)
| information (title text : string)
| critical (title text : string).

Inductive DialogCode := Rejected | Accepted.

Module CreateDatabaseDialog.

(** [create_database()], with [db_input] the text of the line edit: the
    file system afterwards, the box shown, and whether [accept()] was
    called. *)
Definition create_database (folder_path db_input : string)
    (fs : gmap string (list Sqlite.Row))
    : gmap string (list Sqlite.Row) * MessageBox * bool :=
  if negb (nonempty db_input) then
    (fs, warning "Error" "Please enter a database name.", false)
  else
    let db_name := db_input +:+ ".db" in
    let database_path := OsPath.join folder_path db_name in
    match fs !! database_path with
    | None =>
        (Sqlite.create_table_if_not_exists database_path fs,
         information "Database Created" "Database created successfully.",
         true)
    | Some _ =>
        (fs,
         critical "Error" "Database already exists. Please choose another name.",
         false)
    end.

(** [exec()]: the user presses Create with the texts [clicks], one after the
    other, until one press accepts the dialog; when the presses run out the
    user closes the dialog.  Returns the file system, the boxes shown, the
    dialog code and the text left in the line edit. *)
Fixpoint exec (folder_path : string) (clicks : list string)
    (fs : gmap string (list Sqlite.Row))
    : gmap string (list Sqlite.Row) * list MessageBox * DialogCode * string :=
  match clicks with
  | [] => (fs, [], Rejected, "")
  | db_input :: later =>
      let '(fs1, box, accepted) := create_database folder_path db_input fs in
      if accepted then (fs1, [box], Accepted, db_input)
      else
        let '(fs2, boxes, code, text) := exec folder_path later fs1 in
        (fs2, box :: boxes, code, text)
  end.

End CreateDatabaseDialog.

(** ** [ChatApp] *)
Module ChatApp.

(** The attributes of the window the slots read and assign.  [conn] and [c]
    hold the path of the file the connection and its cursor work on;
    [long_running_task_timer] tells whether the timer is active. *)
Record t := mk {
  current_prompt : string;
  message_history : list Message;
  conn : option string;
  c : option string;
  output_text : CustomTextEdit.t;
  database_folder : option string;
  database_path : option string;
  prompt_input : string;
  model_combo : ModelKey;
  worker : Worker.t;
  long_running_task_timer : bool
}.

Definition set_current_prompt (v : string) (self : t) : t :=
  mk v (message_history self) (conn self) (c self) (output_text self)
     (database_folder self) (database_path self) (prompt_input self)
     (model_combo self) (worker self) (long_running_task_timer self).

Definition set_message_history (v : list Message) (self : t) : t :=
  mk (current_prompt self) v (conn self) (c self) (output_text self)
     (database_folder self) (database_path self) (prompt_input self)
     (model_combo self) (worker self) (long_running_task_timer self).

Definition set_conn (v : option string) (self : t) : t :=
  mk (current_prompt self) (message_history self) v (c self)
     (output_text self) (database_folder self) (database_path self)
     (prompt_input self) (model_combo self) (worker self)
     (long_running_task_timer self).

Definition set_c (v : option string) (self : t) : t :=
  mk (current_prompt self) (message_history self) (conn self) v
     (output_text self) (database_folder self) (database_path self)
     (prompt_input self) (model_combo self) (worker self)
     (long_running_task_timer self).

Definition set_output_text (v : CustomTextEdit.t) (self : t) : t :=
  mk (current_prompt self) (message_history self) (conn self) (c self) v
     (database_folder self) (database_path self) (prompt_input self)
     (model_combo self) (worker self) (long_running_task_timer self).

Definition set_database_folder (v : option string) (self : t) : t :=
  mk (current_prompt self) (message_history self) (conn self) (c self)
     (output_text self) v (database_path self) (prompt_input self)
     (model_combo self) (worker self) (long_running_task_timer self).

Definition set_database_path (v : option string) (self : t) : t :=
  mk (current_prompt self) (message_history self) (conn self) (c self)
     (output_text self) (database_folder self) v (prompt_input self)
     (model_combo self) (worker self) (long_running_task_timer self).

Definition set_prompt_input (v : string) (self : t) : t :=
  mk (current_prompt self) (message_history self) (conn self) (c self)
     (output_text self) (database_folder self) (database_path self) v
     (model_combo self) (worker self) (long_running_task_timer self).

Definition set_model_combo (v : ModelKey) (self : t) : t :=
  mk (current_prompt self) (message_history self) (conn self) (c self)
     (output_text self) (database_folder self) (database_path self)
     (prompt_input self) v (worker self) (long_running_task_timer self).

Definition set_worker (v : Worker.t) (self : t) : t :=
  mk (current_prompt self) (message_history self) (conn self) (c self)
     (output_text self) (database_folder self) (database_path self)
     (prompt_input self) (model_combo self) v (long_running_task_timer self).

Definition set_long_running_task_timer (v : bool) (self : t) : t :=
  mk (current_prompt self) (message_history self) (conn self) (c self)
     (output_text self) (database_folder self) (database_path self)
     (prompt_input self) (model_combo self) (worker self) v.

(** [self.output_text.write(text)]. *)
Definition write (text : string) (self : t) : t :=
  set_output_text (CustomTextEdit.write text (output_text self)) self.

(** [scroll_to_end()] moves the cursor of the output widget and nothing
    else; the document keeps its text. *)
Definition scroll_to_end (self : t) : t := self.

(** [__init__()]: the combo box shows the first key of [models]. *)
Definition init : t :=
  let self :=
    {| current_prompt := "";
       message_history := [];
       conn := None;
       c := None;
       output_text := [];
       database_folder := None;
       database_path := None;
       prompt_input := "";
       model_combo := key_gpt_35_turbo;
       worker := Worker.init (models key_gpt_35_turbo) [];
       long_running_task_timer := false |} in
  if negb (truthy (database_folder self)) then
    write "Please specify the folder and the database before the start!" self
  else self.

(** [select_folder_clicked()], the folder dialog returning [chosen]. *)
Definition select_folder_clicked (chosen : string) (self : t) : t :=
  let self := scroll_to_end self in
  let self := set_database_folder (Some chosen) self in
  if negb (truthy (database_folder self)) then self
  else write ("Selected folder: " +:+ chosen) self.

(** [load_database_clicked(database_path)]. *)
Definition load_database_clicked (path : string) (self : t)
    (fs : gmap string (list Sqlite.Row))
    : result (t * gmap string (list Sqlite.Row)) :=
  let self := scroll_to_end self in
  let self := set_database_path (Some path) self in
  let self := set_conn (Some path) self in
  let self := set_c (Some path) self in
  let fs := Sqlite.create_table_if_not_exists path fs in
  bind (Sqlite.select_all path fs) (fun rows =>
  let self := set_message_history (map message_of_row rows) self in
  Ok (write ("Using database: " +:+ path) self, fs)).

(** [select_database_clicked()], the file dialog returning [selected]
    (empty when the user cancels). *)
Definition select_database_clicked (selected : string) (self : t)
    (fs : gmap string (list Sqlite.Row))
    : result (t * gmap string (list Sqlite.Row)) :=
  let self := scroll_to_end self in
  if negb (truthy (database_folder self)) then
    Ok (write "Please select a folder first." self, fs)
  else if nonempty selected then
    let self := set_database_path (Some selected) self in
    load_database_clicked selected self fs
  else Ok (self, fs).

(** [create_database_clicked()], the user pressing Create in the dialog
    with the texts [clicks]; also returns the message boxes shown. *)
Definition create_database_clicked (clicks : list string) (self : t)
    (fs : gmap string (list Sqlite.Row))
    : result (t * gmap string (list Sqlite.Row) * list MessageBox) :=
  let self := scroll_to_end self in
  match database_folder self with
  | None | Some "" => Ok (write "Please select a folder first." self, fs, [])
  | Some folder =>
      let '(fs, boxes, code, db_name_input) :=
        CreateDatabaseDialog.exec folder clicks fs in
      match code with
      | Accepted =>
          if negb (nonempty db_name_input) then
            Ok (write "Please enter a database name." self, fs, boxes)
          else
            let db_name := db_name_input +:+ ".db" in
            let path := OsPath.join folder db_name in
            let self := set_database_path (Some path) self in
            bind (load_database_clicked path self fs) (fun '(self, fs) =>
            Ok (self, fs, boxes))
      | Rejected => Ok (self, fs, boxes)
      end
  end.

(** [clear_database_clicked()], the file dialog returning [selected] and
    the user answering Yes ([true]) or No to the confirmation. *)
Definition clear_database_clicked (selected : string) (confirmation : bool)
    (self : t) (fs : gmap string (list Sqlite.Row))
    : result (t * gmap string (list Sqlite.Row)) :=
  let self := scroll_to_end self in
  if negb (truthy (database_folder self)) then
    Ok (write "Please select a folder first." self, fs)
  else if negb (nonempty selected) then
    Ok (write "No database selected." self, fs)
  else
    let self := set_database_path (Some selected) self in
    if confirmation then
      bind (Sqlite.delete_all selected fs) (fun fs =>
      Ok (write "Database cleared." self, fs))
    else Ok (write "Database not cleared." self, fs).

(** The entry [submit_clicked] appends. *)
Definition new_message (current_time prompt : string) : Message :=
  {| date := current_time; role := "helpful assistant";
     content := prompt; response := " " |}.

(** [submit_clicked()], the clock reading [current_time]. *)
Definition submit_clicked (current_time : string) (self : t) : t :=
  if negb (truthy (database_folder self)) then
    write "Please select a folder first." self
  else if negb (truthy (database_path self)) then
    write "Please select a database first." self
  else
    let self := write "Prompt is submitted. Wait for response generation." self in
    let self := set_worker (Worker.set_model (models (model_combo self)) (worker self)) self in
    let self := set_current_prompt (prompt_input self) self in
    let self :=
      set_message_history
        (message_history self ++ [new_message current_time (current_prompt self)])
        self in
    set_long_running_task_timer true self.

(** [generate_response()]: the new worker, stored and started; [threads]
    are the started workers that have not made their call yet. *)
Definition generate_response (self : t) (threads : list Worker.t)
    : t * list Worker.t :=
  let w := Worker.init (models (model_combo self)) (message_history self) in
  let self := set_worker w self in
  (self, threads ++ [worker self]).

(** [perform_long_running_task()], the slot of the timer. *)
Definition perform_long_running_task (self : t) (threads : list Worker.t)
    : t * list Worker.t :=
  let self := set_long_running_task_timer false self in
  generate_response self threads.

(** The loop of [update_ui] over the received list. *)
Definition overall_message (response : list string) : string :=
  fold_left (fun overall message => overall +:+ message) response "".

(** The entry [update_ui] appends and inserts. *)
Definition message_info (current_time prompt overall : string) : Message :=
  {| date := current_time; role := "helpful assistant";
     content := prompt; response := overall |}.

(** [update_ui(response)], the slot of [Worker.finished], the clock
    reading [current_time]. *)
Definition update_ui (response : list string) (current_time : string)
    (self : t) (fs : gmap string (list Sqlite.Row))
    : result (t * gmap string (list Sqlite.Row)) :=
  let self := scroll_to_end self in
  let overall_message := overall_message response in
  let self := write overall_message self in
  let message_info :=
    message_info current_time (current_prompt self) overall_message in
  let self := set_message_history (message_history self ++ [message_info]) self in
  match c self with
  | None =>
      Raise (AttributeError "'NoneType' object has no attribute 'execute'")
  | Some path =>
      bind (Sqlite.insert path (row_of_message message_info) fs) (fun fs =>
      match conn self with
      | None =>
          Raise (AttributeError "'NoneType' object has no attribute 'commit'")
      | Some _ => Ok (scroll_to_end self, fs)
      end)
  end.

End ChatApp.

(** ** The window in its environment *)

(** The window together with what it acts on: the database files, the worker
    threads started and still to make their provider call, the lists emitted
    through [finished] and still to be delivered to [update_ui], the provider
    calls made so far, and the message boxes shown so far. *)
Record System := mkSystem {
  app : ChatApp.t;
  files : gmap string (list Sqlite.Row);
  threads : list Worker.t;
  finished : list (list string);
  invocations : list Invocation;
  boxes : list MessageBox
}.

(** What the event loop hands to the window, with the answers of the
    environment.  [Submit], [Timeout] and [Finished] run the slots
    [submit_clicked], [perform_long_running_task] and [update_ui];
    [WorkerRuns] is the body of the oldest started thread. *)
Inductive event :=
| TypePrompt (text : string)
| ChooseModel (k : ModelKey)
| ClearInput
| ClearOutput
| SelectFolder (chosen : string)
| SelectDatabase (selected : string)
| CreateDatabase (clicks : list string)
| ClearDatabase (selected : string) (confirmation : bool)
| Submit (current_time : string)
| Timeout
| WorkerRuns (outcome : Completion)
| Finished (current_time : string).

Definition with_app (a : ChatApp.t) (s : System) : System :=
  mkSystem a (files s) (threads s) (finished s) (invocations s) (boxes s).

Definition with_app_files (s : System)
    (r : ChatApp.t * gmap string (list Sqlite.Row)) : System :=
  mkSystem (fst r) (snd r) (threads s) (finished s) (invocations s) (boxes s).

(** One event.  [Timeout] happens only while the timer is active, and
    [WorkerRuns] and [Finished] only while a thread or an emitted list is
    pending; otherwise nothing changes.  The timer is the one [QTimer] of the
    window: [start(0)] on it while it runs restarts it, and its timeout is
    delivered once the event loop has handled the events already queued, so
    several [Submit] events may precede one [Timeout]. *)
Definition step (e : event) (s : System) : result System :=
  match e with
  | TypePrompt text => Ok (with_app (ChatApp.set_prompt_input text (app s)) s)
  | ChooseModel k => Ok (with_app (ChatApp.set_model_combo k (app s)) s)
  | ClearInput => Ok (with_app (ChatApp.set_prompt_input "" (app s)) s)
  | ClearOutput => Ok (with_app (ChatApp.set_output_text [] (app s)) s)
  | SelectFolder chosen =>
      Ok (with_app (ChatApp.select_folder_clicked chosen (app s)) s)
  | SelectDatabase selected =>
      bind (ChatApp.select_database_clicked selected (app s) (files s))
           (fun r => Ok (with_app_files s r))
  | CreateDatabase clicks =>
      bind (ChatApp.create_database_clicked clicks (app s) (files s))
           (fun '(a, fs, shown) =>
              Ok (mkSystem a fs (threads s) (finished s) (invocations s)
                           (boxes s ++ shown)))
  | ClearDatabase selected confirmation =>
      bind (ChatApp.clear_database_clicked selected confirmation (app s) (files s))
           (fun r => Ok (with_app_files s r))
  | Submit current_time =>
      Ok (with_app (ChatApp.submit_clicked current_time (app s)) s)
  | Timeout =>
      if ChatApp.long_running_task_timer (app s) then
        let '(a, ths) := ChatApp.perform_long_running_task (app s) (threads s) in
        Ok (mkSystem a (files s) ths (finished s) (invocations s) (boxes s))
      else Ok s
  | WorkerRuns outcome =>
      match threads s with
      | [] => Ok s
      | w :: waiting =>
          let emitted := snd (Worker.run outcome w) in
          Ok (mkSystem (app s) (files s) waiting (finished s ++ [emitted])
                       (invocations s ++ [Worker.invocation w]) (boxes s))
      end
  | Finished current_time =>
      match finished s with
      | [] => Ok s
      | response :: later =>
          bind (ChatApp.update_ui response current_time (app s) (files s))
               (fun '(a, fs) =>
                  Ok (mkSystem a fs (threads s) later (invocations s) (boxes s)))
      end
  end.

(** A run of the event loop; an exception that leaves a slot ends it. *)
Fixpoint run (trace : list event) (s : System) : result System :=
  match trace with
  | [] => Ok s
  | e :: later => bind (step e s) (run later)
  end.

(** The window as [__init__] leaves it, over the files [fs]. *)
Definition start (fs : gmap string (list Sqlite.Row)) : System :=
  {| app := ChatApp.init; files := fs; threads := []; finished := [];
     invocations := []; boxes := [] |}.

(** The events of one exchange: the prompt is typed and submitted, the timer
    fires, the worker makes its call, and the answer reaches [update_ui]. *)
Definition exchange (prompt submitted : string) (outcome : Completion)
    (answered : string) : list event :=
  [TypePrompt prompt; Submit submitted; Timeout; WorkerRuns outcome;
   Finished answered].

(** What [update_ui] receives for an outcome of the provider call. *)
Definition emitted (outcome : Completion) : list string :=
  match outcome with
  | Returns text => list_of_str text
  | Raises str_e => [Worker.error_message str_e]
  end.

(** A turn: a prompt, the time of its submission, what the provider did, and
    the time the answer arrived. *)
Definition Turn : Type := string * string * Completion * string.

Definition turn_events (t : Turn) : list event :=
  let '(prompt, submitted, outcome, answered) := t in
  exchange prompt submitted outcome answered.

(** The row a turn leaves in the table. *)
Definition turn_row (t : Turn) : Sqlite.Row :=
  let '(prompt, _, outcome, answered) := t in
  (answered, "helpful assistant", prompt,
   ChatApp.overall_message (emitted outcome)).

(** The number of [Submit] events of a trace. *)
Fixpoint submits (trace : list event) : nat :=
  match trace with
  | [] => 0
  | Submit _ :: later => S (submits later)
  | _ :: later => submits later
  end.

(** A session in which submitting works: a folder and a database are
    selected, the connection [load_database_clicked] opened is on the file
    [path], which holds the table, and no worker or answer is pending. *)
Definition Ready (path : string) (s : System) : Prop :=
  truthy (ChatApp.database_folder (app s)) = true /\
  truthy (ChatApp.database_path (app s)) = true /\
  ChatApp.conn (app s) = Some path /\
  ChatApp.c (app s) = Some path /\
  is_Some (files s !! path) /\
  threads s = [] /\
  finished s = [].


(** The window after a submit that passed both guards of
    [submit_clicked]. *)
Definition after_submit (current_time : string) (self : ChatApp.t)
    : ChatApp.t :=
  ChatApp.set_long_running_task_timer true
    (ChatApp.set_message_history
       (ChatApp.message_history self
        ++ [ChatApp.new_message current_time (ChatApp.prompt_input self)])
       (ChatApp.set_current_prompt (ChatApp.prompt_input self)
          (ChatApp.set_worker
             (Worker.set_model (models (ChatApp.model_combo self))
                (ChatApp.worker self))
             (ChatApp.write
                "Prompt is submitted. Wait for response generation." self)))).

(** The system a run leaves, or the system it started from when a slot
    raised. *)
Definition after (trace : list event) (s : System) : System :=
  match run trace s with
  | Ok s' => s'
  | Raise _ => s
  end.

(** A concrete session: a folder selected and the database [notes] created
    in it, on a disk without database files. *)
Definition sample_folder : string := "/home/user/chats".

Definition sample_path : string := "/home/user/chats/notes.db".

Definition sample_session : System :=
  after [SelectFolder sample_folder; CreateDatabase ["notes"]] (start ∅).

Definition sample_turns : list Turn :=
  [("hello", "03-11-2026 10:00:00", Returns "world", "03-11-2026 10:00:07");
   ("again", "03-11-2026 10:01:00", Raises "timed out", "03-11-2026 10:01:30")].

Definition sample_trace : list event := flat_map turn_events sample_turns.

(** ** Further parts of the window *)


(** The attributes of a window agree with the files: connection and cursor
    are on the same file, that file holds the table, and a window with a
    cursor has a database path. *)
Definition Consistent (s : System) : Prop :=
  ChatApp.conn (app s) = ChatApp.c (app s) /\
  (forall path, ChatApp.c (app s) = Some path -> is_Some (files s !! path)) /\
  (is_Some (ChatApp.c (app s)) ->
   truthy (ChatApp.database_path (app s)) = true).

(** The provider calls made or still owed: the calls made, the workers
    started and the timer when it runs. *)
Definition dispatched (s : System) : nat :=
  length (invocations s) + length (threads s)
  + (if ChatApp.long_running_task_timer (app s) then 1 else 0).

(** The two entries a turn leaves in the in-memory history: the one
    [submit_clicked] appends and the one [update_ui] appends. *)
Definition turn_entries (t : Turn) : list Message :=
  let '(prompt, submitted, _, _) := t in
  [ChatApp.new_message submitted prompt; message_of_row (turn_row t)].

(** A concrete session with an answer pending: a prompt was submitted, the
    worker made its call, and the emitted list waits for [update_ui]. *)
Definition pending_trace : list event :=
  [SelectFolder sample_folder; CreateDatabase ["notes"]; TypePrompt "hello";
   Submit "03-11-2026 10:00:00"; Timeout; WorkerRuns (Returns "world")].

Definition pending_session : System := after pending_trace (start ∅).

(** A concrete session with two databases in the folder, the window being
    on [notes]. *)
Definition other_path : string := "/home/user/chats/ideas.db".

Definition two_databases_session : System :=
  after [SelectFolder sample_folder; CreateDatabase ["ideas"];
         TypePrompt "first idea"; Submit "02-11-2026 09:00:00"; Timeout;
         WorkerRuns (Returns "noted"); Finished "02-11-2026 09:00:04";
         CreateDatabase ["notes"]] (start ∅).


(** * Properties *)

(** ** Strings and the received list *)

Lemma append_empty_l (s : string) : "" +:+ s = s.
Proof. reflexivity. Qed.

Lemma append_cons (ch : ascii) (s t : string) :
  String ch s +:+ t = String ch (s +:+ t).
Proof. reflexivity. Qed.

Lemma append_assoc (s t u : string) : (s +:+ t) +:+ u = s +:+ (t +:+ u).
Proof.
  induction s as [|ch s IH]; [reflexivity|].
  rewrite !append_cons. by rewrite IH.
Qed.

Lemma fold_overall (acc : string) (response : list string) :
  fold_left (fun overall message => overall +:+ message) response acc
  = acc +:+ ChatApp.overall_message response.
Proof.
  unfold ChatApp.overall_message.
  revert acc. induction response as [|m response IH]; intros acc; simpl.
  - induction acc as [|ch acc IHacc]; [reflexivity|].
    rewrite append_cons. by rewrite <- IHacc.
  - rewrite IH. rewrite (IH ("" +:+ m)).
    rewrite append_empty_l. by rewrite append_assoc.
Qed.

Lemma overall_message_cons (m : string) (response : list string) :
  ChatApp.overall_message (m :: response)
  = m +:+ ChatApp.overall_message response.
Proof.
  unfold ChatApp.overall_message at 1. simpl.
  rewrite append_empty_l. apply fold_overall.
Qed.

Lemma overall_message_list_of_str (text : string) :
  ChatApp.overall_message (list_of_str text) = text.
Proof.
  induction text as [|ch text IH]; [reflexivity|].
  simpl. rewrite overall_message_cons, IH. reflexivity.
Qed.

Lemma overall_message_singleton (m : string) :
  ChatApp.overall_message [m] = m.
Proof. reflexivity. Qed.

Lemma run_emits (outcome : Completion) (w : Worker.t) :
  snd (Worker.run outcome w) = emitted outcome.
Proof. by destruct outcome. Qed.

(** ** The table under the slots *)

Lemma load_database_clicked_ok (path : string) (self : ChatApp.t)
    (fs : gmap string (list Sqlite.Row)) (rows : list Sqlite.Row) :
  fs !! path = Some rows ->
  ChatApp.load_database_clicked path self fs
  = Ok (ChatApp.write ("Using database: " +:+ path)
          (ChatApp.set_message_history (map message_of_row rows)
             (ChatApp.set_c (Some path)
                (ChatApp.set_conn (Some path)
                   (ChatApp.set_database_path (Some path) self)))),
        fs).
Proof.
  intros Hrows. unfold ChatApp.load_database_clicked, ChatApp.scroll_to_end.
  unfold Sqlite.create_table_if_not_exists, Sqlite.select_all.
  rewrite !Hrows. reflexivity.
Qed.

Lemma update_ui_ok (response : list string) (current_time path : string)
    (self : ChatApp.t) (fs : gmap string (list Sqlite.Row))
    (rows : list Sqlite.Row) :
  ChatApp.c self = Some path ->
  ChatApp.conn self = Some path ->
  fs !! path = Some rows ->
  ChatApp.update_ui response current_time self fs
  = Ok (ChatApp.set_message_history
          (ChatApp.message_history self
           ++ [ChatApp.message_info current_time (ChatApp.current_prompt self)
                 (ChatApp.overall_message response)])
          (ChatApp.write (ChatApp.overall_message response) self),
        <[path := rows ++ [(current_time, "helpful assistant",
                            ChatApp.current_prompt self,
                            ChatApp.overall_message response)]]> fs).
Proof.
  intros Hc Hconn Hrows. destruct self; simpl in *; subst.
  unfold ChatApp.update_ui, ChatApp.scroll_to_end, Sqlite.insert; simpl.
  rewrite Hrows. reflexivity.
Qed.

(** ** One exchange in a ready session *)

Lemma submit_selected (current_time : string) (self : ChatApp.t) :
  truthy (ChatApp.database_folder self) = true ->
  truthy (ChatApp.database_path self) = true ->
  ChatApp.submit_clicked current_time self = after_submit current_time self.
Proof.
  intros Hfolder Hpath. unfold ChatApp.submit_clicked, after_submit.
  rewrite Hfolder, Hpath. reflexivity.
Qed.

Lemma step_submit_selected (s : System) (current_time : string) :
  truthy (ChatApp.database_folder (app s)) = true ->
  truthy (ChatApp.database_path (app s)) = true ->
  step (Submit current_time) s
  = Ok (with_app (after_submit current_time (app s)) s).
Proof.
  intros Hfolder Hpath. cbn [step].
  by rewrite (submit_selected current_time (app s) Hfolder Hpath).
Qed.

Lemma exchange_ready (path : string) (s : System) (rows : list Sqlite.Row)
    (prompt submitted : string) (outcome : Completion) (answered : string) :
  Ready path s ->
  files s !! path = Some rows ->
  exists s',
    run (exchange prompt submitted outcome answered) s = Ok s' /\
    Ready path s' /\
    files s' = <[path := rows ++ [turn_row (prompt, submitted, outcome, answered)]]>
                 (files s) /\
    ChatApp.message_history (app s')
    = ChatApp.message_history (app s)
      ++ [ChatApp.new_message submitted prompt;
          ChatApp.message_info answered prompt
            (ChatApp.overall_message (emitted outcome))] /\
    ChatApp.output_text (app s')
    = ChatApp.output_text (app s)
      ++ ["Prompt is submitted. Wait for response generation." +:+ LF +:+ LF;
          ChatApp.overall_message (emitted outcome) +:+ LF +:+ LF] /\
    invocations s'
    = invocations s
      ++ [{| inv_model := models (ChatApp.model_combo (app s));
             inv_messages := ChatApp.message_history (app s)
                             ++ [ChatApp.new_message submitted prompt] |}] /\
    ChatApp.long_running_task_timer (app s') = false.
Proof.
  intros (Hfolder & Hpath & Hconn & Hc & _ & Hthreads & Hfinished) Hrows.
  destruct s as [a fs ths fin inv bx]. simpl in *. subst ths fin.
  unfold exchange. cbn [run step bind app with_app files threads finished
                        invocations boxes].
  rewrite submit_selected by (destruct a; assumption).
  unfold after_submit.
  destruct a as [cp mh cn cu out folder dbpath input combo w timer].
  simpl in *. subst cn cu.
  rewrite run_emits. cbn [app_nil_l bind finished app files].
  erewrite update_ui_ok by (reflexivity || eassumption).
  cbn [bind]. eexists. split; [reflexivity|].
  unfold Ready; simpl.
  rewrite lookup_insert_eq, <- app_assoc.
  repeat split; eauto.
  unfold CustomTextEdit.write. by rewrite <- app_assoc.
Qed.

Lemma run_app (t1 t2 : list event) (s : System) :
  run (t1 ++ t2) s = bind (run t1 s) (run t2).
Proof.
  revert s. induction t1 as [|e t1 IH]; intros s; simpl; [reflexivity|].
  destruct (step e s) as [s1|err]; simpl; [apply IH|reflexivity].
Qed.


(** ** The claims *)


Lemma sample_session_ready : Ready sample_path sample_session.
Proof.
  unfold Ready. repeat split; try reflexivity. exists []. reflexivity.
Defined.


(** C2.  With the cursor of the window on the database file [path], the
    [INSERT] of [update_ui] followed by a fresh [load_database_clicked] of
    that file gives a history whose last element is the turn just inserted
    (after the rows the table held before). *)
Theorem append_then_load_ends_with_turn (path : string) (self : ChatApp.t)
    (fs : gmap string (list Sqlite.Row)) (rows : list Sqlite.Row)
    (response : list string) (current_time : string) :
  ChatApp.c self = Some path ->
  ChatApp.conn self = Some path ->
  fs !! path = Some rows ->
  exists self1 fs1 self2 fs2,
    ChatApp.update_ui response current_time self fs = Ok (self1, fs1) /\
    ChatApp.load_database_clicked path self1 fs1 = Ok (self2, fs2) /\
    ChatApp.message_history self2
    = map message_of_row rows
      ++ [{| date := current_time; role := "helpful assistant";
             content := ChatApp.current_prompt self;
             response := ChatApp.overall_message response |}] /\
    last (ChatApp.message_history self2)
    = Some {| date := current_time; role := "helpful assistant";
              content := ChatApp.current_prompt self;
              response := ChatApp.overall_message response |}.
Proof.
  intros Hc Hconn Hrows.
  do 4 eexists.
  split; [apply (update_ui_ok _ _ _ _ _ _ Hc Hconn Hrows)|].
  split; [apply load_database_clicked_ok, lookup_insert_eq|].
  assert (forall (h : list Message) (m : Message),
             ChatApp.message_history
               (ChatApp.write ("Using database: " +:+ path)
                  (ChatApp.set_message_history h
                     (ChatApp.set_c (Some path)
                        (ChatApp.set_conn (Some path)
                           (ChatApp.set_database_path (Some path)
                              (ChatApp.set_message_history
                                 (ChatApp.message_history self ++ [m])
                                 (ChatApp.write
                                    (ChatApp.overall_message response)
                                    self)))))))
             = h) as Hget by reflexivity.
  rewrite Hget, map_app. simpl. split; [reflexivity|]. apply last_snoc.
Qed.

Lemma append_then_load_ends_with_turn_witness :
  exists self1 fs1 self2 fs2,
    ChatApp.update_ui ["w"; "o"; "r"; "l"; "d"] "03-11-2026 10:00:07"
      (app sample_session) (files sample_session) = Ok (self1, fs1) /\
    ChatApp.load_database_clicked sample_path self1 fs1 = Ok (self2, fs2) /\
    ChatApp.message_history self2
    = map message_of_row []
      ++ [{| date := "03-11-2026 10:00:07"; role := "helpful assistant";
             content := ChatApp.current_prompt (app sample_session);
             response := ChatApp.overall_message ["w"; "o"; "r"; "l"; "d"] |}] /\
    last (ChatApp.message_history self2)
    = Some {| date := "03-11-2026 10:00:07"; role := "helpful assistant";
              content := ChatApp.current_prompt (app sample_session);
              response := ChatApp.overall_message ["w"; "o"; "r"; "l"; "d"] |}.
Proof.
  apply (append_then_load_ends_with_turn sample_path (app sample_session)
           (files sample_session) []); reflexivity.
Defined.

(** Joining a folder and a file name with [os.path.join] gives a
    non-empty path when the file name is not empty. *)
Lemma join_nonempty (a b : string) :
  nonempty b = true -> nonempty (OsPath.join a b) = true.
Proof.
  intros Hb. unfold OsPath.join.
  destruct (OsPath.startswith_sep b); [assumption|].
  destruct (negb (nonempty a) || OsPath.endswith_sep a).
  - destruct a as [|ch a]; [assumption|reflexivity].
  - destruct a as [|ch a]; reflexivity.
Qed.

Lemma truthy_Some (s : string) : truthy (Some s) = nonempty s.
Proof. by destruct s. Qed.

Lemma create_database_fresh (folder_path db_input : string)
    (fs : gmap string (list Sqlite.Row)) :
  nonempty db_input = true ->
  fs !! OsPath.join folder_path (db_input +:+ ".db") = None ->
  CreateDatabaseDialog.create_database folder_path db_input fs
  = (<[OsPath.join folder_path (db_input +:+ ".db") := []]> fs,
     information "Database Created" "Database created successfully.",
     true).
Proof.
  intros Hname Hfresh. unfold CreateDatabaseDialog.create_database.
  rewrite Hname. cbn [negb]. rewrite Hfresh.
  unfold Sqlite.create_table_if_not_exists. by rewrite Hfresh.
Qed.

Lemma create_database_clicked_fresh (folder db_input : string)
    (self : ChatApp.t) (fs : gmap string (list Sqlite.Row)) :
  ChatApp.database_folder self = Some folder ->
  nonempty folder = true ->
  nonempty db_input = true ->
  fs !! OsPath.join folder (db_input +:+ ".db") = None ->
  ChatApp.create_database_clicked [db_input] self fs
  = Ok (ChatApp.write
          ("Using database: " +:+ OsPath.join folder (db_input +:+ ".db"))
          (ChatApp.set_message_history []
             (ChatApp.set_c (Some (OsPath.join folder (db_input +:+ ".db")))
                (ChatApp.set_conn
                   (Some (OsPath.join folder (db_input +:+ ".db")))
                   (ChatApp.set_database_path
                      (Some (OsPath.join folder (db_input +:+ ".db")))
                      self)))),
        <[OsPath.join folder (db_input +:+ ".db") := []]> fs,
        [information "Database Created" "Database created successfully."]).
Proof.
  intros Hfolder Hnonempty Hname Hfresh.
  unfold ChatApp.create_database_clicked, ChatApp.scroll_to_end.
  rewrite Hfolder. destruct folder as [|ch folder]; [discriminate|].
  cbn [CreateDatabaseDialog.exec].
  rewrite (create_database_fresh _ _ _ Hname Hfresh).
  rewrite Hname. cbn [negb].
  erewrite load_database_clicked_ok by apply lookup_insert_eq.
  destruct self; reflexivity.
Qed.

(** C3.  In any non-empty folder in which no file [test.db] exists yet:
    selecting the folder, creating the database [test] (the file
    [test.db]), submitting the prompt [hello] to a provider that returns
    [world], and loading the history afterwards gives exactly one turn, with
    content [hello] and response [world]. *)
Theorem create_submit_load_one_turn (folder : string)
    (fs : gmap string (list Sqlite.Row)) (submitted answered : string) :
  nonempty folder = true ->
  fs !! OsPath.join folder "test.db" = None ->
  exists s a fs',
    run ([SelectFolder folder; CreateDatabase ["test"]]
         ++ exchange "hello" submitted (Returns "world") answered)
        (start fs) = Ok s /\
    ChatApp.load_database_clicked (OsPath.join folder "test.db")
      (app s) (files s) = Ok (a, fs') /\
    ChatApp.message_history a
    = [{| date := answered; role := "helpful assistant";
          content := "hello"; response := "world" |}].
Proof.
  intros Hfolder Hfresh.
  set (path := OsPath.join folder "test.db") in *.
  assert (exists s0,
             run [SelectFolder folder; CreateDatabase ["test"]] (start fs)
             = Ok s0 /\ Ready path s0 /\ files s0 !! path = Some [])
    as (s0 & Hrun0 & Hready0 & Hrows0).
  { cbn [run step bind app files start with_app].
    unfold ChatApp.select_folder_clicked, ChatApp.scroll_to_end.
    cbn [ChatApp.database_folder ChatApp.set_database_folder ChatApp.init
         ChatApp.write ChatApp.set_output_text].
    rewrite truthy_Some, Hfolder. cbn [negb].
    erewrite (create_database_clicked_fresh folder "test")
      by (reflexivity || assumption).
    cbn [bind]. eexists. split; [reflexivity|].
    unfold Ready. cbn -[truthy OsPath.join nonempty].
    change ("test" +:+ ".db") with "test.db". fold path.
    rewrite lookup_insert_eq, !truthy_Some, Hfolder.
    unfold path. rewrite join_nonempty by reflexivity.
    repeat split; eauto. }
  destruct (exchange_ready path s0 [] "hello" submitted (Returns "world")
              answered Hready0 Hrows0)
    as (s1 & Hrun1 & _ & Hfiles1 & _).
  exists s1. do 2 eexists. rewrite run_app, Hrun0. cbn [bind].
  split; [exact Hrun1|].
  erewrite load_database_clicked_ok
    by (rewrite Hfiles1; apply lookup_insert_eq).
  split; reflexivity.
Qed.

Lemma create_submit_load_one_turn_witness :
  exists s a fs',
    run ([SelectFolder "/home/user/chats"; CreateDatabase ["test"]]
         ++ exchange "hello" "03-11-2026 10:00:00" (Returns "world")
              "03-11-2026 10:00:07")
        (start ∅) = Ok s /\
    ChatApp.load_database_clicked (OsPath.join "/home/user/chats" "test.db")
      (app s) (files s) = Ok (a, fs') /\
    ChatApp.message_history a
    = [{| date := "03-11-2026 10:00:07"; role := "helpful assistant";
          content := "hello"; response := "world" |}].
Proof.
  apply (create_submit_load_one_turn "/home/user/chats" ∅); reflexivity.
Defined.

(** ** What the slots do to the rows of a table *)

Lemma create_table_keeps (path q : string) (fs : gmap string (list Sqlite.Row))
    (old : list Sqlite.Row) :
  fs !! q = Some old ->
  Sqlite.create_table_if_not_exists path fs !! q = Some old.
Proof.
  intros Hq. unfold Sqlite.create_table_if_not_exists.
  destruct (fs !! path) eqn:Hpath; [assumption|].
  rewrite lookup_insert_ne; [assumption|]. intros ->. congruence.
Qed.

Lemma load_database_clicked_keeps (path q : string) (self self' : ChatApp.t)
    (fs fs' : gmap string (list Sqlite.Row)) (old : list Sqlite.Row) :
  ChatApp.load_database_clicked path self fs = Ok (self', fs') ->
  fs !! q = Some old ->
  fs' !! q = Some old.
Proof.
  unfold ChatApp.load_database_clicked. intros Hload Hq.
  destruct (Sqlite.select_all path _); simpl in Hload; [|discriminate].
  injection Hload as _ <-. by apply create_table_keeps.
Qed.

Lemma create_database_keeps (folder_path db_input q : string)
    (fs : gmap string (list Sqlite.Row)) (old : list Sqlite.Row) :
  fs !! q = Some old ->
  (CreateDatabaseDialog.create_database folder_path db_input fs).1.1 !! q
  = Some old.
Proof.
  intros Hq. unfold CreateDatabaseDialog.create_database.
  destruct (negb (nonempty db_input)); [assumption|].
  destruct (fs !! OsPath.join folder_path (db_input +:+ ".db")) eqn:Hpath;
    [assumption|].
  by apply create_table_keeps.
Qed.

Lemma exec_keeps (folder_path q : string) (clicks : list string) :
  forall (fs : gmap string (list Sqlite.Row)) (old : list Sqlite.Row),
  fs !! q = Some old ->
  (CreateDatabaseDialog.exec folder_path clicks fs).1.1.1 !! q = Some old.
Proof.
  induction clicks as [|db_input clicks IH]; intros fs old Hq;
    [assumption|].
  cbn [CreateDatabaseDialog.exec].
  pose proof (create_database_keeps folder_path db_input q fs old Hq) as Hkeep.
  destruct (CreateDatabaseDialog.create_database folder_path db_input fs)
    as [[fs1 box] accepted]. simpl in Hkeep.
  destruct accepted; [assumption|].
  specialize (IH fs1 old Hkeep).
  destruct (CreateDatabaseDialog.exec folder_path clicks fs1)
    as [[[fs2 shown] code] text]. assumption.
Qed.

(** An event leaves the rows of every table as they were, or appends one
    row to them, or removes them all. *)
Lemma step_rows (e : event) (s s' : System) (q : string)
    (old : list Sqlite.Row) :
  step e s = Ok s' ->
  files s !! q = Some old ->
  files s' !! q = Some old \/
  (exists row, files s' !! q = Some (old ++ [row])) \/
  files s' !! q = Some [].
Proof.
  intros Hstep Hq. destruct e; simpl in Hstep.
  - injection Hstep as <-. by left.
  - injection Hstep as <-. by left.
  - injection Hstep as <-. by left.
  - injection Hstep as <-. by left.
  - injection Hstep as <-. by left.
  - unfold ChatApp.select_database_clicked in Hstep.
    destruct (negb (truthy _)); [injection Hstep as <-; by left|].
    destruct (nonempty selected); [|injection Hstep as <-; by left].
    destruct (ChatApp.load_database_clicked _ _ _) as [[a fs]|] eqn:Hload;
      [|discriminate].
    injection Hstep as <-. left. simpl.
    eapply load_database_clicked_keeps; eassumption.
  - unfold ChatApp.create_database_clicked in Hstep.
    destruct (ChatApp.database_folder _) as [[|ch folder]|];
      try (injection Hstep as <-; by left).
    pose proof (exec_keeps (String ch folder) q clicks (files s) old Hq) as Hkeep.
    destruct (CreateDatabaseDialog.exec _ clicks (files s))
      as [[[fs1 shown] code] text]. simpl in Hkeep.
    destruct code; [injection Hstep as <-; by left|].
    destruct (negb (nonempty text)); [injection Hstep as <-; by left|].
    destruct (ChatApp.load_database_clicked _ _ _) as [[a fs]|] eqn:Hload;
      [|discriminate].
    injection Hstep as <-. left. simpl.
    eapply load_database_clicked_keeps; eassumption.
  - unfold ChatApp.clear_database_clicked in Hstep.
    destruct (negb (truthy _)); [injection Hstep as <-; by left|].
    destruct (negb (nonempty selected)); [injection Hstep as <-; by left|].
    destruct confirmation; [|injection Hstep as <-; by left].
    unfold Sqlite.delete_all in Hstep.
    destruct (files s !! selected) eqn:Hsel; [|discriminate].
    injection Hstep as <-. simpl.
    destruct (decide (selected = q)) as [->|Hne].
    + right. right. apply lookup_insert_eq.
    + left. by rewrite lookup_insert_ne.
  - injection Hstep as <-. by left.
  - destruct (ChatApp.long_running_task_timer _);
      injection Hstep as <-; by left.
  - destruct (threads s); injection Hstep as <-; by left.
  - destruct (finished s) as [|response later];
      [injection Hstep as <-; by left|].
    unfold ChatApp.update_ui in Hstep.
    destruct (ChatApp.c _) as [path|]; [|discriminate].
    unfold Sqlite.insert in Hstep.
    destruct (files s !! path) as [rows|] eqn:Hpath; [|discriminate].
    simpl in Hstep.
    destruct (ChatApp.conn _); [|discriminate].
    injection Hstep as <-. simpl.
    destruct (decide (path = q)) as [->|Hne].
    + right. left. rewrite lookup_insert_eq. eexists.
      replace old with rows by congruence. reflexivity.
    + left. by rewrite lookup_insert_ne.
Qed.






(** C5.  The code does not store a turn for every failing submit.  On a
    disk holding the database [notes], from the initial window: a folder is
    selected, the database is picked in the Clear Message History dialog
    (answered No), and a prompt is submitted.  The submit passes both guards
    and the provider call, which raises, is caught and turned into the error
    message; but the window has no cursor, so [update_ui] raises when the
    message arrives, and the table is left without the turn. *)
Theorem failure_after_clear_dialog_is_not_stored :
  exists s,
    run [SelectFolder sample_folder; ClearDatabase sample_path false;
         TypePrompt "hello"; Submit "03-11-2026 10:00:00"; Timeout;
         WorkerRuns (Raises "timed out")]
        (start (files sample_session)) = Ok s /\
    length (invocations s) = 1 /\
    finished s = [["Error generating response: timed out"]] /\
    step (Finished "03-11-2026 10:00:30") s
    = Raise (AttributeError "'NoneType' object has no attribute 'execute'") /\
    files s !! sample_path = Some [].
Proof.
  exists (after [SelectFolder sample_folder; ClearDatabase sample_path false;
                 TypePrompt "hello"; Submit "03-11-2026 10:00:00"; Timeout;
                 WorkerRuns (Raises "timed out")]
            (start (files sample_session))).
  vm_compute. repeat split.
Qed.

(** In a ready session, a submit whose provider call raises an
    exception with message [str_e] ends with a stored turn: the exception
    does not leave the worker, and the row appended to the table has the
    prompt as content and, as response, ["Error generating response: "]
    followed by [str_e]; the same text is the response of the newest
    in-memory entry.  Replaying the submit with the same failure appends a
    second row with the same response text. *)
Theorem failure_is_stored_as_response (path : string) (s : System)
    (rows : list Sqlite.Row) (prompt submitted answered : string)
    (resubmitted reanswered : string) (str_e : string) :
  Ready path s ->
  files s !! path = Some rows ->
  exists s1 s2,
    run (exchange prompt submitted (Raises str_e) answered) s = Ok s1 /\
    files s1 !! path
    = Some (rows ++ [(answered, "helpful assistant", prompt,
                      "Error generating response: " +:+ str_e)]) /\
    last (ChatApp.message_history (app s1))
    = Some {| date := answered; role := "helpful assistant";
              content := prompt;
              response := "Error generating response: " +:+ str_e |} /\
    run (exchange prompt resubmitted (Raises str_e) reanswered) s1 = Ok s2 /\
    files s2 !! path
    = Some (rows ++ [(answered, "helpful assistant", prompt,
                      "Error generating response: " +:+ str_e);
                     (reanswered, "helpful assistant", prompt,
                      "Error generating response: " +:+ str_e)]).
Proof.
  intros Hready Hrows.
  destruct (exchange_ready path s rows prompt submitted (Raises str_e)
              answered Hready Hrows)
    as (s1 & Hrun1 & Hready1 & Hfiles1 & Hhistory1 & _).
  assert (files s1 !! path
          = Some (rows ++ [(answered, "helpful assistant", prompt,
                            "Error generating response: " +:+ str_e)]))
    as Hrows1 by (rewrite Hfiles1; apply lookup_insert_eq).
  destruct (exchange_ready path s1 _ prompt resubmitted (Raises str_e)
              reanswered Hready1 Hrows1)
    as (s2 & Hrun2 & _ & Hfiles2 & _).
  exists s1, s2. split; [exact Hrun1|]. split; [exact Hrows1|].
  split.
  { rewrite Hhistory1.
    change (ChatApp.message_history (app s)
            ++ [ChatApp.new_message submitted prompt;
                ChatApp.message_info answered prompt
                  (ChatApp.overall_message (emitted (Raises str_e)))])
      with (ChatApp.message_history (app s)
            ++ [ChatApp.new_message submitted prompt]
            ++ [ChatApp.message_info answered prompt
                  (ChatApp.overall_message (emitted (Raises str_e)))]).
    rewrite app_assoc. apply last_snoc. }
  split; [exact Hrun2|].
  rewrite Hfiles2, lookup_insert_eq, <- app_assoc. reflexivity.
Qed.

Lemma failure_is_stored_as_response_witness :
  exists s1 s2,
    run (exchange "hello" "03-11-2026 10:00:00" (Raises "timed out")
           "03-11-2026 10:00:30") sample_session = Ok s1 /\
    files s1 !! sample_path
    = Some ([] ++ [("03-11-2026 10:00:30", "helpful assistant", "hello",
                    "Error generating response: " +:+ "timed out")]) /\
    last (ChatApp.message_history (app s1))
    = Some {| date := "03-11-2026 10:00:30"; role := "helpful assistant";
              content := "hello";
              response := "Error generating response: " +:+ "timed out" |} /\
    run (exchange "hello" "03-11-2026 10:05:00" (Raises "timed out")
           "03-11-2026 10:05:30") s1 = Ok s2 /\
    files s2 !! sample_path
    = Some ([] ++ [("03-11-2026 10:00:30", "helpful assistant", "hello",
                    "Error generating response: " +:+ "timed out");
                   ("03-11-2026 10:05:30", "helpful assistant", "hello",
                    "Error generating response: " +:+ "timed out")]).
Proof.
  apply (failure_is_stored_as_response sample_path sample_session []
           "hello" "03-11-2026 10:00:00" "03-11-2026 10:00:30"
           "03-11-2026 10:05:00" "03-11-2026 10:05:30" "timed out"
           sample_session_ready).
  reflexivity.
Defined.

(** C6.  When no database is selected ([database_path] is [None], or
    empty), a submit only writes one inline message to the output widget:
    every other attribute of the window, the database files, the started
    workers, the pending answers and the provider calls made are what they
    were; the timer is not started, so when it was idle and no worker was
    waiting, no provider call follows either. *)
Theorem submit_without_database_only_writes (s : System)
    (current_time : string) :
  truthy (ChatApp.database_path (app s)) = false ->
  exists text,
    (text = "Please select a folder first." \/
     text = "Please select a database first.") /\
    step (Submit current_time) s
    = Ok (with_app
            (ChatApp.set_output_text
               (ChatApp.output_text (app s) ++ [text +:+ LF +:+ LF]) (app s))
            s) /\
    forall s', step (Submit current_time) s = Ok s' ->
      files s' = files s /\
      invocations s' = invocations s /\
      threads s' = threads s /\
      finished s' = finished s /\
      ChatApp.long_running_task_timer (app s')
      = ChatApp.long_running_task_timer (app s) /\
      ChatApp.message_history (app s') = ChatApp.message_history (app s) /\
      (ChatApp.long_running_task_timer (app s) = false ->
       threads s = [] ->
       forall outcome, run [Timeout; WorkerRuns outcome] s' = Ok s').
Proof.
  intros Hpath. cbn [step]. unfold ChatApp.submit_clicked. rewrite Hpath.
  cbn [negb].
  destruct (negb (truthy (ChatApp.database_folder (app s)))).
  - exists "Please select a folder first.".
    split; [by left|]. split; [reflexivity|].
    intros s' [= <-]. repeat split.
    intros Htimer Hthreads outcome.
    destruct s as [a fs ths fin inv bx]; simpl in *.
    rewrite Htimer, Hthreads. reflexivity.
  - exists "Please select a database first.".
    split; [by right|]. split; [reflexivity|].
    intros s' [= <-]. repeat split.
    intros Htimer Hthreads outcome.
    destruct s as [a fs ths fin inv bx]; simpl in *.
    rewrite Htimer, Hthreads. reflexivity.
Qed.

Lemma submit_without_database_only_writes_witness :
  exists text,
    (text = "Please select a folder first." \/
     text = "Please select a database first.") /\
    step (Submit "03-11-2026 10:00:00") (start ∅)
    = Ok (with_app
            (ChatApp.set_output_text
               (ChatApp.output_text (app (start ∅)) ++ [text +:+ LF +:+ LF])
               (app (start ∅)))
            (start ∅)) /\
    forall s', step (Submit "03-11-2026 10:00:00") (start ∅) = Ok s' ->
      files s' = files (start ∅) /\
      invocations s' = invocations (start ∅) /\
      threads s' = threads (start ∅) /\
      finished s' = finished (start ∅) /\
      ChatApp.long_running_task_timer (app s')
      = ChatApp.long_running_task_timer (app (start ∅)) /\
      ChatApp.message_history (app s')
      = ChatApp.message_history (app (start ∅)) /\
      (ChatApp.long_running_task_timer (app (start ∅)) = false ->
       threads (start ∅) = [] ->
       forall outcome, run [Timeout; WorkerRuns outcome] s' = Ok s').
Proof.
  apply (submit_without_database_only_writes (start ∅)). reflexivity.
Defined.

(** C7.  With a folder selected, clearing an existing database file (the
    user picks it and answers Yes) empties its table whatever it held, and
    loading that file afterwards returns the empty history. *)
Theorem clear_then_load_is_empty (selected : string) (self : ChatApp.t)
    (fs : gmap string (list Sqlite.Row)) (rows : list Sqlite.Row) :
  truthy (ChatApp.database_folder self) = true ->
  nonempty selected = true ->
  fs !! selected = Some rows ->
  exists self1 fs1 self2 fs2,
    ChatApp.clear_database_clicked selected true self fs = Ok (self1, fs1) /\
    fs1 !! selected = Some [] /\
    ChatApp.load_database_clicked selected self1 fs1 = Ok (self2, fs2) /\
    ChatApp.message_history self2 = [] /\
    fs2 !! selected = Some [].
Proof.
  intros Hfolder Hselected Hrows.
  unfold ChatApp.clear_database_clicked, ChatApp.scroll_to_end.
  rewrite Hfolder, Hselected. cbn [negb].
  unfold Sqlite.delete_all. rewrite Hrows. cbn [bind].
  do 4 eexists. split; [reflexivity|].
  split; [apply lookup_insert_eq|].
  split; [apply load_database_clicked_ok, lookup_insert_eq|].
  split; [reflexivity|apply lookup_insert_eq].
Qed.

Lemma clear_then_load_is_empty_witness :
  exists self1 fs1 self2 fs2,
    ChatApp.clear_database_clicked sample_path true
      (app (after sample_trace sample_session))
      (files (after sample_trace sample_session)) = Ok (self1, fs1) /\
    fs1 !! sample_path = Some [] /\
    ChatApp.load_database_clicked sample_path self1 fs1 = Ok (self2, fs2) /\
    ChatApp.message_history self2 = [] /\
    fs2 !! sample_path = Some [].
Proof.
  apply (clear_then_load_is_empty sample_path
           (app (after sample_trace sample_session))
           (files (after sample_trace sample_session))
           (map turn_row sample_turns));
    reflexivity.
Defined.

(** C8.  When a name has been entered and a file of that name (with the
    [.db] suffix) exists in the folder, pressing Create shows the critical
    message box saying that the database already exists, does not accept
    the dialog, and leaves every file as it was: none is made, replaced or
    changed. *)
Theorem create_existing_database_reports (folder_path db_input : string)
    (fs : gmap string (list Sqlite.Row)) (rows : list Sqlite.Row) :
  nonempty db_input = true ->
  fs !! OsPath.join folder_path (db_input +:+ ".db") = Some rows ->
  CreateDatabaseDialog.create_database folder_path db_input fs
  = (fs,
     critical "Error" "Database already exists. Please choose another name.",
     false).
Proof.
  intros Hname Hexists. unfold CreateDatabaseDialog.create_database.
  rewrite Hname. cbn [negb]. by rewrite Hexists.
Qed.

Lemma create_existing_database_reports_witness :
  CreateDatabaseDialog.create_database sample_folder "notes"
    (files sample_session)
  = (files sample_session,
     critical "Error" "Database already exists. Please choose another name.",
     false).
Proof.
  apply (create_existing_database_reports sample_folder "notes"
           (files sample_session) []); reflexivity.
Defined.

(** C9, as the specification states it, fails.  In the sample session,
    with a folder and a database selected, two submits that the event loop
    handles before the zero-delay timer fires are followed by one provider
    call only: the second [start(0)] restarts the one timer, its single
    expiry starts a single worker, and once that worker has answered
    nothing is left to run. *)
Lemma two_submits_share_one_invocation :
  let trace :=
    [Submit "03-11-2026 10:00:00"; Submit "03-11-2026 10:00:00"; Timeout;
     WorkerRuns (Returns "hi"); Finished "03-11-2026 10:00:07"] in
  truthy (ChatApp.database_folder (app sample_session)) = true /\
  truthy (ChatApp.database_path (app sample_session)) = true /\
  submits trace = 2 /\
  exists s',
    run trace sample_session = Ok s' /\
    length (invocations s') = length (invocations sample_session) + 1 /\
    ChatApp.long_running_task_timer (app s') = false /\
    threads s' = [] /\
    finished s' = [] /\
    run [Timeout; WorkerRuns (Returns "late"); Finished "03-11-2026 10:01:00"]
        s' = Ok s'.
Proof.
  cbv zeta. split; [reflexivity|]. split; [reflexivity|].
  split; [reflexivity|].
  exists (after [Submit "03-11-2026 10:00:00"; Submit "03-11-2026 10:00:00";
                 Timeout; WorkerRuns (Returns "hi");
                 Finished "03-11-2026 10:00:07"] sample_session).
  vm_compute. repeat split.
Qed.

(** C9, amended.  With a folder and a database selected, a submit starts
    the zero-delay timer and dispatches nothing itself; the expiry of the
    timer stops it and starts exactly one worker on the history ending with
    the submitted prompt, and a second expiry does not happen; a started
    worker makes exactly one provider call.  So a submit whose timer expires
    before the next submit is followed by exactly one provider call, never
    by more (submits handled while the timer is still running share the one
    call of its expiry). *)
Theorem submit_then_expiry_dispatches_once (s : System)
    (current_time : string) :
  truthy (ChatApp.database_folder (app s)) = true ->
  truthy (ChatApp.database_path (app s)) = true ->
  exists s1 s2,
    step (Submit current_time) s = Ok s1 /\
    invocations s1 = invocations s /\
    threads s1 = threads s /\
    ChatApp.long_running_task_timer (app s1) = true /\
    step Timeout s1 = Ok s2 /\
    invocations s2 = invocations s /\
    threads s2
    = threads s
      ++ [Worker.init (models (ChatApp.model_combo (app s)))
            (ChatApp.message_history (app s)
             ++ [ChatApp.new_message current_time
                   (ChatApp.prompt_input (app s))])] /\
    ChatApp.long_running_task_timer (app s2) = false /\
    step Timeout s2 = Ok s2 /\
    (forall (u : System) (w : Worker.t) (waiting : list Worker.t)
            (outcome : Completion),
        threads u = w :: waiting ->
        exists u',
          step (WorkerRuns outcome) u = Ok u' /\
          threads u' = waiting /\
          invocations u' = invocations u ++ [Worker.invocation w]) /\
    (threads s = [] ->
     forall outcome later, exists s3,
       run [Submit current_time; Timeout; WorkerRuns outcome] s = Ok s3 /\
       invocations s3
       = invocations s
         ++ [{| inv_model := models (ChatApp.model_combo (app s));
                inv_messages :=
                  ChatApp.message_history (app s)
                  ++ [ChatApp.new_message current_time
                        (ChatApp.prompt_input (app s))] |}] /\
       run [Timeout; WorkerRuns later] s3 = Ok s3).
Proof.
  intros Hfolder Hpath.
  pose proof (step_submit_selected s current_time Hfolder Hpath) as Hsubmit.
  clear Hfolder Hpath.
  exists (with_app (after_submit current_time (app s)) s). eexists.
  split; [exact Hsubmit|].
  do 3 (split; [reflexivity|]).
  split; [reflexivity|].
  do 3 (split; [reflexivity|]).
  split; [reflexivity|].
  split.
  - intros u w0 waiting outcome Hths.
    cbn [step]. rewrite Hths. eexists. repeat split.
  - intros Hths outcome later.
    cbn [run bind]. rewrite Hsubmit. cbn [bind].
    destruct s as [a fs ths fin inv bx]. cbn [threads] in Hths. subst ths.
    eexists. repeat split.
Qed.

Lemma submit_then_expiry_dispatches_once_witness :
  exists s1 s2,
    step (Submit "03-11-2026 10:00:00") sample_session = Ok s1 /\
    invocations s1 = invocations sample_session /\
    threads s1 = threads sample_session /\
    ChatApp.long_running_task_timer (app s1) = true /\
    step Timeout s1 = Ok s2 /\
    invocations s2 = invocations sample_session /\
    threads s2
    = threads sample_session
      ++ [Worker.init (models (ChatApp.model_combo (app sample_session)))
            (ChatApp.message_history (app sample_session)
             ++ [ChatApp.new_message "03-11-2026 10:00:00"
                   (ChatApp.prompt_input (app sample_session))])] /\
    ChatApp.long_running_task_timer (app s2) = false /\
    step Timeout s2 = Ok s2 /\
    (forall (u : System) (w : Worker.t) (waiting : list Worker.t)
            (outcome : Completion),
        threads u = w :: waiting ->
        exists u',
          step (WorkerRuns outcome) u = Ok u' /\
          threads u' = waiting /\
          invocations u' = invocations u ++ [Worker.invocation w]) /\
    (threads sample_session = [] ->
     forall outcome later, exists s3,
       run [Submit "03-11-2026 10:00:00"; Timeout; WorkerRuns outcome]
           sample_session = Ok s3 /\
       invocations s3
       = invocations sample_session
         ++ [{| inv_model := models (ChatApp.model_combo (app sample_session));
                inv_messages :=
                  ChatApp.message_history (app sample_session)
                  ++ [ChatApp.new_message "03-11-2026 10:00:00"
                        (ChatApp.prompt_input (app sample_session))] |}] /\
       run [Timeout; WorkerRuns later] s3 = Ok s3).
Proof.
  apply (submit_then_expiry_dispatches_once sample_session
           "03-11-2026 10:00:00"); reflexivity.
Defined.

(** C10.  For every text the provider returns, the list the worker emits
    is the text split into its characters, and [update_ui] concatenates
    that list back into the same text: the text written to the output
    widget, the response of the entry appended to the in-memory history and
    the response column of the inserted row are all exactly the provider's
    text. *)
Theorem provider_text_is_reassembled (text : string) (w : Worker.t)
    (path current_time : string) (self : ChatApp.t)
    (fs : gmap string (list Sqlite.Row)) (rows : list Sqlite.Row) :
  ChatApp.c self = Some path ->
  ChatApp.conn self = Some path ->
  fs !! path = Some rows ->
  (Worker.run (Returns text) w).2 = list_of_str text /\
  ChatApp.overall_message (Worker.run (Returns text) w).2 = text /\
  exists self',
    ChatApp.update_ui (Worker.run (Returns text) w).2 current_time self fs
    = Ok (self',
          <[path := rows ++ [(current_time, "helpful assistant",
                              ChatApp.current_prompt self, text)]]> fs) /\
    ChatApp.output_text self'
    = ChatApp.output_text self ++ [text +:+ LF +:+ LF] /\
    ChatApp.message_history self'
    = ChatApp.message_history self
      ++ [{| date := current_time; role := "helpful assistant";
             content := ChatApp.current_prompt self; response := text |}].
Proof.
  intros Hc Hconn Hrows. cbn [Worker.run snd].
  split; [reflexivity|].
  split; [apply overall_message_list_of_str|].
  eexists. rewrite (update_ui_ok _ _ _ _ _ _ Hc Hconn Hrows).
  rewrite overall_message_list_of_str.
  split; [reflexivity|]. split; reflexivity.
Qed.

Lemma provider_text_is_reassembled_witness :
  (Worker.run (Returns "world") (ChatApp.worker (app sample_session))).2
  = list_of_str "world" /\
  ChatApp.overall_message
    (Worker.run (Returns "world") (ChatApp.worker (app sample_session))).2
  = "world" /\
  exists self',
    ChatApp.update_ui
      (Worker.run (Returns "world") (ChatApp.worker (app sample_session))).2
      "03-11-2026 10:00:07" (app sample_session) (files sample_session)
    = Ok (self',
          <[sample_path := [] ++ [("03-11-2026 10:00:07", "helpful assistant",
                                   ChatApp.current_prompt (app sample_session),
                                   "world")]]> (files sample_session)) /\
    ChatApp.output_text self'
    = ChatApp.output_text (app sample_session) ++ ["world" +:+ LF +:+ LF] /\
    ChatApp.message_history self'
    = ChatApp.message_history (app sample_session)
      ++ [{| date := "03-11-2026 10:00:07"; role := "helpful assistant";
             content := ChatApp.current_prompt (app sample_session);
             response := "world" |}].
Proof.
  apply (provider_text_is_reassembled "world"
           (ChatApp.worker (app sample_session)) sample_path
           "03-11-2026 10:00:07" (app sample_session) (files sample_session)
           []); reflexivity.
Defined.

(** ** A session whose database was only ever picked in the clear dialog *)

(** [clear_database_clicked] assigns [database_path] without opening a
    connection.  From the initial window, selecting a folder and picking a
    database in the clear dialog therefore lets a submit pass both guards
    of [submit_clicked] while [c] is still [None]: the provider is called,
    and [update_ui] raises when it reaches [self.c.execute], so the turn is
    not stored. *)
Theorem submit_after_clear_only_raises (folder selected : string)
    (fs : gmap string (list Sqlite.Row)) (prompt submitted : string)
    (outcome : Completion) (answered : string) :
  nonempty folder = true ->
  nonempty selected = true ->
  exists s,
    run [SelectFolder folder; ClearDatabase selected false;
         TypePrompt prompt; Submit submitted; Timeout; WorkerRuns outcome]
        (start fs) = Ok s /\
    files s = fs /\
    length (invocations s) = 1 /\
    step (Finished answered) s
    = Raise (AttributeError "'NoneType' object has no attribute 'execute'").
Proof.
  intros Hfolder Hselected.
  destruct folder as [|ch folder]; [discriminate|].
  destruct selected as [|ch' selected]; [discriminate|].
  exists (after [SelectFolder (String ch folder);
                 ClearDatabase (String ch' selected) false;
                 TypePrompt prompt; Submit submitted; Timeout;
                 WorkerRuns outcome] (start fs)).
  vm_compute. repeat split.
Qed.

Lemma submit_after_clear_only_raises_witness :
  exists s,
    run [SelectFolder sample_folder; ClearDatabase sample_path false;
         TypePrompt "hello"; Submit "03-11-2026 10:00:00"; Timeout;
         WorkerRuns (Returns "world")]
        (start (files sample_session)) = Ok s /\
    files s = files sample_session /\
    length (invocations s) = 1 /\
    step (Finished "03-11-2026 10:00:07") s
    = Raise (AttributeError "'NoneType' object has no attribute 'execute'").
Proof.
  apply (submit_after_clear_only_raises sample_folder sample_path
           (files sample_session)); reflexivity.
Defined.


(** ** The create dialog *)









(** ** Loading *)

(** Loading an existing database of the program changes no file.  The
    in-memory history becomes exactly the rows of the loaded file, whatever
    the window held before (entries that were never written are dropped);
    connection, cursor and database path are on the loaded file, and the
    folder and the current prompt are kept.  Loading the same file again
    changes neither the files nor the history. *)
Theorem load_database_clicked_outcome (path : string) (self : ChatApp.t)
    (fs : gmap string (list Sqlite.Row)) (rows : list Sqlite.Row) :
  fs !! path = Some rows ->
  exists self',
    ChatApp.load_database_clicked path self fs = Ok (self', fs) /\
    ChatApp.message_history self' = map message_of_row rows /\
    ChatApp.conn self' = Some path /\
    ChatApp.c self' = Some path /\
    ChatApp.database_path self' = Some path /\
    ChatApp.database_folder self' = ChatApp.database_folder self /\
    ChatApp.current_prompt self' = ChatApp.current_prompt self /\
    exists self'',
      ChatApp.load_database_clicked path self' fs = Ok (self'', fs) /\
      ChatApp.message_history self'' = ChatApp.message_history self'.
Proof.
  intros Hrows.
  exists (ChatApp.write ("Using database: " +:+ path)
            (ChatApp.set_message_history (map message_of_row rows)
               (ChatApp.set_c (Some path)
                  (ChatApp.set_conn (Some path)
                     (ChatApp.set_database_path (Some path) self))))).
  split; [by apply load_database_clicked_ok|].
  do 6 (split; [done|]).
  eexists. split; [by apply load_database_clicked_ok|]. reflexivity.
Qed.

Lemma load_database_clicked_outcome_witness :
  exists self',
    ChatApp.load_database_clicked sample_path
      (app (after sample_trace sample_session))
      (files (after sample_trace sample_session))
    = Ok (self', files (after sample_trace sample_session)) /\
    ChatApp.message_history self'
    = map message_of_row (map turn_row sample_turns) /\
    ChatApp.conn self' = Some sample_path /\
    ChatApp.c self' = Some sample_path /\
    ChatApp.database_path self' = Some sample_path /\
    ChatApp.database_folder self'
    = ChatApp.database_folder (app (after sample_trace sample_session)) /\
    ChatApp.current_prompt self'
    = ChatApp.current_prompt (app (after sample_trace sample_session)) /\
    exists self'',
      ChatApp.load_database_clicked sample_path self'
        (files (after sample_trace sample_session))
      = Ok (self'', files (after sample_trace sample_session)) /\
      ChatApp.message_history self'' = ChatApp.message_history self'.
Proof.
  apply (load_database_clicked_outcome sample_path
           (app (after sample_trace sample_session))
           (files (after sample_trace sample_session))
           (map turn_row sample_turns)).
  vm_compute. reflexivity.
Defined.

(** ** The folder guard *)

(** While no folder is selected ([database_folder] is [None] or empty),
    the slots behind Select Database, Create Database, Clear Message History
    and Submit all do the same thing and nothing more: they write ["Please
    select a folder first."] to the output widget.  No dialog answer is
    used, no file is touched, and history, connection, database path, timer
    and workers stay as they are. *)
Theorem without_folder_only_the_message (s : System) (selected : string)
    (clicks : list string) (confirmation : bool) (current_time : string) :
  truthy (ChatApp.database_folder (app s)) = false ->
  let refused :=
    Ok (with_app (ChatApp.write "Please select a folder first." (app s)) s) in
  step (SelectDatabase selected) s = refused /\
  step (CreateDatabase clicks) s = refused /\
  step (ClearDatabase selected confirmation) s = refused /\
  step (Submit current_time) s = refused.
Proof.
  intros Hfolder refused. subst refused.
  destruct s as [a fs ths fin inv bx]. cbn [app] in Hfolder.
  cbn [step app files threads finished invocations boxes].
  unfold ChatApp.select_database_clicked, ChatApp.create_database_clicked,
    ChatApp.clear_database_clicked, ChatApp.submit_clicked,
    ChatApp.scroll_to_end.
  rewrite Hfolder. cbn [negb bind].
  repeat split.
  destruct (ChatApp.database_folder a) as [[|ch folder]|];
    try discriminate; cbn [bind]; by rewrite app_nil_r.
Qed.

Lemma without_folder_only_the_message_witness :
  let refused :=
    Ok (with_app
          (ChatApp.write "Please select a folder first." (app (start ∅)))
          (start ∅)) in
  step (SelectDatabase sample_path) (start ∅) = refused /\
  step (CreateDatabase ["notes"]) (start ∅) = refused /\
  step (ClearDatabase sample_path true) (start ∅) = refused /\
  step (Submit "03-11-2026 10:00:00") (start ∅) = refused.
Proof.
  apply (without_folder_only_the_message (start ∅) sample_path ["notes"] true
           "03-11-2026 10:00:00").
  reflexivity.
Defined.

(** Cancelling the folder dialog does not keep the folder selected before:
    [select_folder_clicked] stores the empty answer, writes nothing, and
    leaves everything else alone, so from then on a submit is refused with
    the folder message, also in a session that was ready. *)
Theorem cancelled_folder_dialog_forgets_folder (s : System)
    (current_time : string) :
  exists s1,
    step (SelectFolder "") s = Ok s1 /\
    s1 = with_app (ChatApp.set_database_folder (Some "") (app s)) s /\
    step (Submit current_time) s1
    = Ok (with_app (ChatApp.write "Please select a folder first." (app s1))
            s1).
Proof.
  eexists. split; [reflexivity|]. split; reflexivity.
Qed.

(** ** What every run keeps *)

Lemma step_keeps_file (e : event) (s s' : System) (q : string) :
  step e s = Ok s' ->
  is_Some (files s !! q) ->
  is_Some (files s' !! q).
Proof.
  intros Hstep [old Hq].
  destruct (step_rows e s s' q old Hstep Hq) as [H|[[row H]|H]];
    rewrite H; eauto.
Qed.

Lemma load_database_clicked_connects (path : string) (self self' : ChatApp.t)
    (fs fs' : gmap string (list Sqlite.Row)) :
  ChatApp.load_database_clicked path self fs = Ok (self', fs') ->
  ChatApp.conn self' = Some path /\
  ChatApp.c self' = Some path /\
  ChatApp.database_path self' = Some path /\
  is_Some (fs' !! path) /\
  ChatApp.long_running_task_timer self'
  = ChatApp.long_running_task_timer self.
Proof.
  unfold ChatApp.load_database_clicked, ChatApp.scroll_to_end.
  unfold Sqlite.select_all.
  destruct (Sqlite.create_table_if_not_exists path fs !! path) as [rows|]
    eqn:Hrows; cbn [bind]; [|discriminate].
  intros [= <- <-]. rewrite Hrows. repeat split. by exists rows.
Qed.

Lemma nonempty_db_name (text : string) : nonempty (text +:+ ".db") = true.
Proof. by destruct text. Qed.

(** Closes the case of an event that leaves connection, cursor and
    database path as they are. *)
Ltac untouched :=
  left; repeat split; solve [reflexivity | left; reflexivity].

(** After an event, either connection and cursor are what they were and
    the database path is what it was or a non-empty one, or connection and
    cursor are on one file that holds the table and the database path is
    not empty. *)
Lemma step_connection (e : event) (s s' : System) :
  step e s = Ok s' ->
  (ChatApp.conn (app s') = ChatApp.conn (app s) /\
   ChatApp.c (app s') = ChatApp.c (app s) /\
   (ChatApp.database_path (app s') = ChatApp.database_path (app s) \/
    truthy (ChatApp.database_path (app s')) = true)) \/
  (exists path,
      ChatApp.conn (app s') = Some path /\
      ChatApp.c (app s') = Some path /\
      is_Some (files s' !! path) /\
      truthy (ChatApp.database_path (app s')) = true).
Proof.
  intros Hstep. destruct e; simpl in Hstep.
  - injection Hstep as <-. untouched.
  - injection Hstep as <-. untouched.
  - injection Hstep as <-. untouched.
  - injection Hstep as <-. untouched.
  - injection Hstep as <-. destruct chosen; untouched.
  - unfold ChatApp.select_database_clicked in Hstep.
    destruct (negb (truthy _));
      [injection Hstep as <-; untouched|].
    destruct (nonempty selected) eqn:Hselected;
      [|injection Hstep as <-; untouched].
    destruct (ChatApp.load_database_clicked _ _ _) as [[a fs]|] eqn:Hload;
      [|discriminate].
    injection Hstep as <-. right. exists selected.
    destruct (load_database_clicked_connects _ _ _ _ _ Hload)
      as (Hconn & Hc & Hpath & Hfile & _).
    simpl. rewrite Hpath, truthy_Some. by repeat split.
  - unfold ChatApp.create_database_clicked in Hstep.
    destruct (ChatApp.database_folder _) as [[|ch folder]|];
      try (injection Hstep as <-; untouched).
    destruct (CreateDatabaseDialog.exec _ clicks (files s))
      as [[[fs1 shown] code] text].
    destruct code;
      [injection Hstep as <-; untouched|].
    destruct (negb (nonempty text));
      [injection Hstep as <-; untouched|].
    destruct (ChatApp.load_database_clicked _ _ _) as [[a fs]|] eqn:Hload;
      [|discriminate].
    injection Hstep as <-. right. eexists.
    destruct (load_database_clicked_connects _ _ _ _ _ Hload)
      as (Hconn & Hc & Hpath & Hfile & _).
    simpl. rewrite Hpath, truthy_Some, join_nonempty
      by apply nonempty_db_name.
    by repeat split.
  - unfold ChatApp.clear_database_clicked in Hstep.
    destruct (negb (truthy _));
      [injection Hstep as <-; untouched|].
    destruct (nonempty selected) eqn:Hselected; cbn [negb] in Hstep;
      [|injection Hstep as <-; untouched].
    destruct confirmation.
    + destruct (Sqlite.delete_all _ _); [|discriminate].
      injection Hstep as <-. left.
      destruct selected; [discriminate|]. repeat split. by right.
    + injection Hstep as <-. left.
      destruct selected; [discriminate|]. repeat split. by right.
  - injection Hstep as <-. cbn [app with_app].
    unfold ChatApp.submit_clicked.
    destruct (negb (truthy (ChatApp.database_folder _))); [untouched|].
    destruct (negb (truthy (ChatApp.database_path _))); untouched.
  - destruct (ChatApp.long_running_task_timer _);
      injection Hstep as <-; untouched.
  - destruct (threads s); injection Hstep as <-; untouched.
  - destruct (finished s) as [|response later];
      [injection Hstep as <-; untouched|].
    unfold ChatApp.update_ui in Hstep.
    destruct (ChatApp.c _) as [path|] eqn:Hc; [|discriminate].
    destruct (Sqlite.insert _ _ _); [|discriminate].
    simpl in Hstep. destruct (ChatApp.conn _) eqn:Hconn; [|discriminate].
    injection Hstep as <-. simpl in *. rewrite Hc, Hconn. untouched.
Qed.

Lemma step_consistent (e : event) (s s' : System) :
  Consistent s ->
  step e s = Ok s' ->
  Consistent s'.
Proof.
  intros (Hsame & Hfile & Hpath) Hstep.
  destruct (step_connection e s s' Hstep)
    as [(Hconn & Hc & Hdb)|(path & Hconn & Hc & Hexists & Hdb)].
  - split; [congruence|]. split.
    + intros path Hcursor. rewrite Hc in Hcursor.
      eapply step_keeps_file; eauto.
    + intros Hcursor. rewrite Hc in Hcursor.
      destruct Hdb as [Hdb|Hdb]; [rewrite Hdb; auto|exact Hdb].
  - split; [congruence|]. split; [|auto].
    intros q Hcursor. rewrite Hc in Hcursor. by injection Hcursor as <-.
Qed.

Lemma run_consistent (trace : list event) :
  forall s s', Consistent s -> run trace s = Ok s' -> Consistent s'.
Proof.
  induction trace as [|e trace IH]; intros s s' Hs Hrun; simpl in Hrun.
  - by injection Hrun as <-.
  - destruct (step e s) as [s1|] eqn:Hstep; [|discriminate].
    eapply IH; [|exact Hrun]. eapply step_consistent; eauto.
Qed.

Lemma start_consistent (fs : gmap string (list Sqlite.Row)) :
  Consistent (start fs).
Proof.
  split; [reflexivity|]. split.
  - intros path Hc. discriminate.
  - intros [path Hc]. discriminate.
Qed.

(** However the window is used from its start, over whatever files: the
    connection and the cursor are on the same file (or both missing), that
    file exists and holds the table, and once there is a cursor a database
    path is set. *)
Theorem reachable_consistent (trace : list event)
    (fs : gmap string (list Sqlite.Row)) (s : System) :
  run trace (start fs) = Ok s ->
  ChatApp.conn (app s) = ChatApp.c (app s) /\
  (forall path, ChatApp.c (app s) = Some path -> is_Some (files s !! path)) /\
  (is_Some (ChatApp.c (app s)) ->
   truthy (ChatApp.database_path (app s)) = true).
Proof.
  intros Hrun. change (Consistent s).
  eapply run_consistent; [apply start_consistent|exact Hrun].
Qed.

Lemma reachable_consistent_witness :
  ChatApp.conn (app (after sample_trace sample_session))
  = ChatApp.c (app (after sample_trace sample_session)) /\
  (forall path,
      ChatApp.c (app (after sample_trace sample_session)) = Some path ->
      is_Some (files (after sample_trace sample_session) !! path)) /\
  (is_Some (ChatApp.c (app (after sample_trace sample_session))) ->
   truthy (ChatApp.database_path (app (after sample_trace sample_session)))
   = true).
Proof.
  apply (reachable_consistent
           ([SelectFolder sample_folder; CreateDatabase ["notes"]]
            ++ sample_trace) ∅).
  vm_compute. reflexivity.
Defined.

(** However the window is used from its start, when an answer is pending,
    [update_ui] raises exactly when the window has no cursor, that is when
    no database was ever loaded; with a cursor the turn is stored. *)
Theorem update_ui_raises_only_without_cursor (trace : list event)
    (fs : gmap string (list Sqlite.Row)) (s : System)
    (response : list string) (later : list (list string))
    (current_time : string) :
  run trace (start fs) = Ok s ->
  finished s = response :: later ->
  match ChatApp.c (app s) with
  | None =>
      step (Finished current_time) s
      = Raise (AttributeError "'NoneType' object has no attribute 'execute'")
  | Some path =>
      exists rows s',
        files s !! path = Some rows /\
        step (Finished current_time) s = Ok s' /\
        files s'
        = <[path := rows ++ [(current_time, "helpful assistant",
                              ChatApp.current_prompt (app s),
                              ChatApp.overall_message response)]]> (files s) /\
        finished s' = later
  end.
Proof.
  intros Hrun Hfinished.
  destruct (run_consistent trace _ _ (start_consistent fs) Hrun)
    as (Hsame & Hfile & _).
  cbn [step]. rewrite Hfinished.
  destruct (ChatApp.c (app s)) as [path|] eqn:Hc.
  - destruct (Hfile path eq_refl) as [rows Hrows].
    exists rows. eexists. split; [exact Hrows|].
    rewrite (update_ui_ok response current_time path (app s) (files s) rows
               Hc Hsame Hrows).
    cbn [bind]. repeat split.
  - unfold ChatApp.update_ui, ChatApp.scroll_to_end.
    cbn [ChatApp.c ChatApp.set_message_history ChatApp.write
         ChatApp.set_output_text].
    cbn [ChatApp.c] in Hc. rewrite Hc. reflexivity.
Qed.

Lemma update_ui_raises_only_without_cursor_witness :
  match ChatApp.c (app pending_session) with
  | None =>
      step (Finished "03-11-2026 10:00:07") pending_session
      = Raise (AttributeError "'NoneType' object has no attribute 'execute'")
  | Some path =>
      exists rows s',
        files pending_session !! path = Some rows /\
        step (Finished "03-11-2026 10:00:07") pending_session = Ok s' /\
        files s'
        = <[path := rows ++ [("03-11-2026 10:00:07", "helpful assistant",
                              ChatApp.current_prompt (app pending_session),
                              ChatApp.overall_message (list_of_str "world"))]]>
            (files pending_session) /\
        finished s' = []
  end.
Proof.
  apply (update_ui_raises_only_without_cursor pending_trace ∅ pending_session
           (list_of_str "world") [] "03-11-2026 10:00:07");
    vm_compute; reflexivity.
Defined.

(** ** Provider calls never outnumber submits *)

(** Closes a counting goal once the slots are unfolded. *)
Ltac tally := simpl; unfold ChatApp.scroll_to_end; lia.

Lemma step_dispatched (e : event) (s s' : System) :
  step e s = Ok s' ->
  dispatched s' <= dispatched s + match e with Submit _ => 1 | _ => 0 end.
Proof.
  intros Hstep. unfold dispatched. destruct e; simpl in Hstep.
  - injection Hstep as <-. tally.
  - injection Hstep as <-. tally.
  - injection Hstep as <-. tally.
  - injection Hstep as <-. tally.
  - injection Hstep as <-. destruct chosen; tally.
  - unfold ChatApp.select_database_clicked in Hstep.
    destruct (negb (truthy _)); [injection Hstep as <-; tally|].
    destruct (nonempty selected); [|injection Hstep as <-; tally].
    destruct (ChatApp.load_database_clicked _ _ _) as [[a fs]|] eqn:Hload;
      [|discriminate].
    injection Hstep as <-.
    destruct (load_database_clicked_connects _ _ _ _ _ Hload)
      as (_ & _ & _ & _ & Htimer).
    simpl in *. unfold ChatApp.scroll_to_end in *. simpl in *.
    rewrite Htimer. lia.
  - unfold ChatApp.create_database_clicked in Hstep.
    destruct (ChatApp.database_folder _) as [[|ch folder]|];
      try (injection Hstep as <-; tally).
    destruct (CreateDatabaseDialog.exec _ clicks (files s))
      as [[[fs1 shown] code] text].
    destruct code; [injection Hstep as <-; tally|].
    destruct (negb (nonempty text)); [injection Hstep as <-; tally|].
    destruct (ChatApp.load_database_clicked _ _ _) as [[a fs]|] eqn:Hload;
      [|discriminate].
    injection Hstep as <-.
    destruct (load_database_clicked_connects _ _ _ _ _ Hload)
      as (_ & _ & _ & _ & Htimer).
    simpl in *. unfold ChatApp.scroll_to_end in *. simpl in *.
    rewrite Htimer. lia.
  - unfold ChatApp.clear_database_clicked in Hstep.
    destruct (negb (truthy _)); [injection Hstep as <-; tally|].
    destruct (negb (nonempty selected)); [injection Hstep as <-; tally|].
    destruct confirmation; [|injection Hstep as <-; tally].
    destruct (Sqlite.delete_all _ _); [|discriminate].
    injection Hstep as <-. tally.
  - injection Hstep as <-. cbn [app with_app threads invocations].
    unfold ChatApp.submit_clicked.
    destruct (negb (truthy (ChatApp.database_folder _))); [tally|].
    destruct (negb (truthy (ChatApp.database_path _))); [tally|].
    simpl. destruct (ChatApp.long_running_task_timer (app s)); lia.
  - destruct (ChatApp.long_running_task_timer (app s)) eqn:Htimer;
      injection Hstep as <-; simpl; [|rewrite Htimer; lia].
    rewrite length_app. tally.
  - destruct (threads s) as [|w waiting] eqn:Hthreads;
      injection Hstep as <-; simpl; [rewrite Hthreads; tally|].
    rewrite length_app. tally.
  - destruct (finished s) as [|response later];
      [injection Hstep as <-; lia|].
    unfold ChatApp.update_ui in Hstep.
    destruct (ChatApp.c _) as [path|]; [|discriminate].
    destruct (Sqlite.insert _ _ _); [|discriminate].
    simpl in Hstep. destruct (ChatApp.conn _); [|discriminate].
    injection Hstep as <-. tally.
Qed.

Lemma run_dispatched (trace : list event) :
  forall s s',
  run trace s = Ok s' -> dispatched s' <= dispatched s + submits trace.
Proof.
  induction trace as [|e trace IH]; intros s s' Hrun; simpl in Hrun.
  - injection Hrun as <-. simpl. lia.
  - destruct (step e s) as [s1|] eqn:Hstep; [|discriminate].
    pose proof (step_dispatched e s s1 Hstep) as Hone.
    pose proof (IH s1 s' Hrun) as Hrest.
    destruct e; simpl; lia.
Qed.

(** However the window is used from its start, the provider calls made
    plus the workers started and still to make theirs never outnumber the
    Submit presses; while the timer runs they are fewer. *)
Theorem invocations_bounded_by_submits (trace : list event)
    (fs : gmap string (list Sqlite.Row)) (s : System) :
  run trace (start fs) = Ok s ->
  length (invocations s) + length (threads s)
  + (if ChatApp.long_running_task_timer (app s) then 1 else 0)
  <= submits trace.
Proof.
  intros Hrun. pose proof (run_dispatched trace (start fs) s Hrun) as Hle.
  unfold dispatched in Hle. simpl in Hle. lia.
Qed.

Lemma invocations_bounded_by_submits_witness :
  length (invocations pending_session) + length (threads pending_session)
  + (if ChatApp.long_running_task_timer (app pending_session) then 1 else 0)
  <= submits pending_trace.
Proof.
  apply (invocations_bounded_by_submits pending_trace ∅ pending_session).
  vm_compute. reflexivity.
Defined.

(** ** The in-memory history against the table *)

(** In a ready session every exchange leaves two entries in the in-memory
    history (the one-space entry of the submit and the completed one) but
    one row in the table: after any turns the in-memory history is the old
    one followed by two entries per turn, the table is the old rows followed
    by one row per turn, and one provider call was made per turn. *)
Theorem history_after_turns (path : string) (turns : list Turn) :
  forall (s : System) (rows : list Sqlite.Row),
  Ready path s ->
  files s !! path = Some rows ->
  exists s',
    run (flat_map turn_events turns) s = Ok s' /\
    ChatApp.message_history (app s')
    = ChatApp.message_history (app s) ++ flat_map turn_entries turns /\
    files s' !! path = Some (rows ++ map turn_row turns) /\
    length (invocations s') = length (invocations s) + length turns.
Proof.
  induction turns as [|[[[prompt submitted] outcome] answered] turns IH];
    intros s rows Hready Hrows; cbn [flat_map turn_events map turn_entries].
  - exists s. rewrite !app_nil_r. simpl. repeat split; [assumption|lia].
  - destruct (exchange_ready path s rows prompt submitted outcome answered
                Hready Hrows)
      as (s1 & Hrun & Hready1 & Hfiles & Hhistory & _ & Hcalls & _).
    assert (files s1 !! path
            = Some (rows ++ [turn_row (prompt, submitted, outcome, answered)]))
      as Hrows1 by (rewrite Hfiles; apply lookup_insert_eq).
    destruct (IH s1 _ Hready1 Hrows1) as (s2 & Hrun2 & Hhistory2 & Hrows2 & Hcalls2).
    exists s2. rewrite run_app, Hrun. cbn [bind].
    split; [exact Hrun2|].
    split; [rewrite Hhistory2, Hhistory, <- app_assoc; reflexivity|].
    split; [rewrite Hrows2, <- app_assoc; reflexivity|].
    rewrite Hcalls2, Hcalls, length_app. simpl. lia.
Qed.

Lemma history_after_turns_witness :
  exists s',
    run (flat_map turn_events sample_turns) sample_session = Ok s' /\
    ChatApp.message_history (app s')
    = ChatApp.message_history (app sample_session)
      ++ flat_map turn_entries sample_turns /\
    files s' !! sample_path = Some ([] ++ map turn_row sample_turns) /\
    length (invocations s')
    = length (invocations sample_session) + length sample_turns.
Proof.
  apply (history_after_turns sample_path sample_turns sample_session []
           sample_session_ready).
  reflexivity.
Defined.

(** ** The model of a provider call *)

(** When the selection of the combo box changes after a submit and before
    its timer fires, and the worker then makes its call before the window
    handles anything else, the call goes to the newly selected model, with
    the history ending in the submitted prompt: [generate_response] builds
    the worker from the selection it finds, and the model [submit_clicked]
    assigned went to the worker object of before. *)
Theorem model_is_read_when_timer_fires (s : System) (current_time : string)
    (k : ModelKey) (outcome : Completion) :
  truthy (ChatApp.database_folder (app s)) = true ->
  truthy (ChatApp.database_path (app s)) = true ->
  threads s = [] ->
  exists s',
    run [Submit current_time; ChooseModel k; Timeout; WorkerRuns outcome] s
    = Ok s' /\
    invocations s'
    = invocations s
      ++ [{| inv_model := models k;
             inv_messages :=
               ChatApp.message_history (app s)
               ++ [ChatApp.new_message current_time
                     (ChatApp.prompt_input (app s))] |}].
Proof.
  intros Hfolder Hpath Hthreads.
  pose proof (step_submit_selected s current_time Hfolder Hpath) as Hsubmit.
  cbn [run bind]. rewrite Hsubmit. cbn [bind].
  destruct s as [a fs ths fin inv bx]. cbn [threads] in Hthreads. subst ths.
  eexists. split; reflexivity.
Qed.

Lemma model_is_read_when_timer_fires_witness :
  exists s',
    run [Submit "03-11-2026 10:00:00"; ChooseModel key_gemini; Timeout;
         WorkerRuns (Returns "world")] sample_session = Ok s' /\
    invocations s'
    = invocations sample_session
      ++ [{| inv_model := models key_gemini;
             inv_messages :=
               ChatApp.message_history (app sample_session)
               ++ [ChatApp.new_message "03-11-2026 10:00:00"
                     (ChatApp.prompt_input (app sample_session))] |}].
Proof.
  apply (model_is_read_when_timer_fires sample_session "03-11-2026 10:00:00"
           key_gemini (Returns "world")); reflexivity.
Defined.

(** ** Clearing and switching databases in a ready session *)

Lemma clear_ready (path selected : string) (confirmation : bool) (s : System)
    (cleared : list Sqlite.Row) :
  Ready path s ->
  nonempty selected = true ->
  files s !! selected = Some cleared ->
  exists s1,
    step (ClearDatabase selected confirmation) s = Ok s1 /\
    Ready path s1 /\
    files s1 = (if confirmation then <[selected := []]> (files s) else files s) /\
    ChatApp.message_history (app s1) = ChatApp.message_history (app s) /\
    ChatApp.model_combo (app s1) = ChatApp.model_combo (app s) /\
    ChatApp.database_path (app s1) = Some selected /\
    invocations s1 = invocations s.
Proof.
  intros (Hfolder & Hpath & Hconn & Hc & Hfile & Hthreads & Hfinished)
    Hselected Hcleared.
  cbn [step]. unfold ChatApp.clear_database_clicked, ChatApp.scroll_to_end.
  rewrite Hfolder, Hselected. cbn [negb].
  unfold Sqlite.delete_all. rewrite Hcleared.
  destruct confirmation; cbn [bind]; eexists; (split; [reflexivity|]);
    unfold Ready; cbn -[truthy]; rewrite truthy_Some, Hselected;
    repeat split; try assumption.
  destruct (decide (selected = path)) as [->|Hne].
  - rewrite lookup_insert_eq. eauto.
  - by rewrite lookup_insert_ne.
Qed.

Lemma select_ready (path selected : string) (s : System)
    (rows : list Sqlite.Row) :
  Ready path s ->
  nonempty selected = true ->
  files s !! selected = Some rows ->
  exists s1,
    step (SelectDatabase selected) s = Ok s1 /\
    Ready selected s1 /\
    files s1 = files s /\
    ChatApp.message_history (app s1) = map message_of_row rows /\
    ChatApp.model_combo (app s1) = ChatApp.model_combo (app s) /\
    invocations s1 = invocations s.
Proof.
  intros (Hfolder & Hpath & Hconn & Hc & Hfile & Hthreads & Hfinished)
    Hselected Hrows.
  cbn [step]. unfold ChatApp.select_database_clicked, ChatApp.scroll_to_end.
  rewrite Hfolder, Hselected. cbn [negb].
  erewrite load_database_clicked_ok by exact Hrows.
  cbn [bind]. eexists. split; [reflexivity|].
  unfold Ready; cbn -[truthy]. rewrite truthy_Some, Hselected, Hrows.
  repeat split; eauto.
Qed.

(** Clearing the loaded database empties its table but not the in-memory
    history: in a ready session, after Clear Message History on the loaded
    file (answered Yes), the window still holds the old history, and the
    next provider call still sends it, followed by the new prompt; the
    table then holds the new turn only. *)
Theorem clear_keeps_in_memory_history (path : string) (s : System)
    (rows : list Sqlite.Row) (prompt submitted : string)
    (outcome : Completion) (answered : string) :
  Ready path s ->
  nonempty path = true ->
  files s !! path = Some rows ->
  exists s1 s2,
    step (ClearDatabase path true) s = Ok s1 /\
    files s1 !! path = Some [] /\
    ChatApp.message_history (app s1) = ChatApp.message_history (app s) /\
    run (exchange prompt submitted outcome answered) s1 = Ok s2 /\
    invocations s2
    = invocations s
      ++ [{| inv_model := models (ChatApp.model_combo (app s));
             inv_messages := ChatApp.message_history (app s)
                             ++ [ChatApp.new_message submitted prompt] |}] /\
    files s2 !! path
    = Some [turn_row (prompt, submitted, outcome, answered)].
Proof.
  intros Hready Hpath Hrows.
  destruct (clear_ready path path true s rows Hready Hpath Hrows)
    as (s1 & Hstep & Hready1 & Hfiles1 & Hhistory1 & Hcombo1 & _ & Hcalls1).
  assert (files s1 !! path = Some []) as Hrows1
    by (rewrite Hfiles1; apply lookup_insert_eq).
  destruct (exchange_ready path s1 [] prompt submitted outcome answered
              Hready1 Hrows1)
    as (s2 & Hrun & _ & Hfiles2 & _ & _ & Hcalls2 & _).
  exists s1, s2. split; [exact Hstep|]. split; [exact Hrows1|].
  split; [exact Hhistory1|]. split; [exact Hrun|].
  split; [by rewrite Hcalls2, Hcalls1, Hhistory1, Hcombo1|].
  rewrite Hfiles2. apply lookup_insert_eq.
Qed.

Lemma clear_keeps_in_memory_history_witness :
  exists s1 s2,
    step (ClearDatabase sample_path true) (after sample_trace sample_session)
    = Ok s1 /\
    files s1 !! sample_path = Some [] /\
    ChatApp.message_history (app s1)
    = ChatApp.message_history (app (after sample_trace sample_session)) /\
    run (exchange "more" "03-11-2026 11:00:00" (Returns "sure")
           "03-11-2026 11:00:05") s1 = Ok s2 /\
    invocations s2
    = invocations (after sample_trace sample_session)
      ++ [{| inv_model :=
               models (ChatApp.model_combo
                         (app (after sample_trace sample_session)));
             inv_messages :=
               ChatApp.message_history
                 (app (after sample_trace sample_session))
               ++ [ChatApp.new_message "03-11-2026 11:00:00" "more"] |}] /\
    files s2 !! sample_path
    = Some [turn_row ("more", "03-11-2026 11:00:00", Returns "sure",
                      "03-11-2026 11:00:05")].
Proof.
  apply (clear_keeps_in_memory_history sample_path
           (after sample_trace sample_session) (map turn_row sample_turns)).
  - unfold Ready. vm_compute. repeat split. by eexists.
  - reflexivity.
  - vm_compute. reflexivity.
Defined.

(** Picking another database in the Clear Message History dialog moves
    [database_path] to it but not the connection: in a session ready on one
    file, after clearing (or declining to clear) a different existing file,
    the next turn is still stored in the file loaded before, and the picked
    file holds no row of it. *)
Theorem turn_after_clearing_other_database (path selected : string)
    (confirmation : bool) (s : System) (rows others : list Sqlite.Row)
    (prompt submitted : string) (outcome : Completion) (answered : string) :
  Ready path s ->
  files s !! path = Some rows ->
  nonempty selected = true ->
  selected <> path ->
  files s !! selected = Some others ->
  exists s1 s2,
    step (ClearDatabase selected confirmation) s = Ok s1 /\
    ChatApp.database_path (app s1) = Some selected /\
    run (exchange prompt submitted outcome answered) s1 = Ok s2 /\
    files s2 !! path
    = Some (rows ++ [turn_row (prompt, submitted, outcome, answered)]) /\
    files s2 !! selected = Some (if confirmation then [] else others).
Proof.
  intros Hready Hrows Hselected Hne Hothers.
  destruct (clear_ready path selected confirmation s others Hready Hselected
              Hothers)
    as (s1 & Hstep & Hready1 & Hfiles1 & _ & _ & Hdb1 & _).
  assert (files s1 !! path = Some rows) as Hrows1.
  { rewrite Hfiles1. destruct confirmation; [|exact Hrows].
    by rewrite lookup_insert_ne. }
  destruct (exchange_ready path s1 rows prompt submitted outcome answered
              Hready1 Hrows1)
    as (s2 & Hrun & _ & Hfiles2 & _).
  exists s1, s2. split; [exact Hstep|]. split; [exact Hdb1|].
  split; [exact Hrun|]. rewrite Hfiles2.
  split; [apply lookup_insert_eq|].
  rewrite lookup_insert_ne by congruence. rewrite Hfiles1.
  destruct confirmation; [apply lookup_insert_eq|exact Hothers].
Qed.

(** Selecting another existing database in a ready session switches the
    session to it: the in-memory history becomes its rows, the next turn is
    appended to its table, and the table of the database loaded before is
    left as it was. *)
Theorem turn_after_selecting_other_database (path selected : string)
    (s : System) (rows others : list Sqlite.Row)
    (prompt submitted : string) (outcome : Completion) (answered : string) :
  Ready path s ->
  files s !! path = Some rows ->
  nonempty selected = true ->
  selected <> path ->
  files s !! selected = Some others ->
  exists s1 s2,
    step (SelectDatabase selected) s = Ok s1 /\
    ChatApp.message_history (app s1) = map message_of_row others /\
    run (exchange prompt submitted outcome answered) s1 = Ok s2 /\
    files s2 !! selected
    = Some (others ++ [turn_row (prompt, submitted, outcome, answered)]) /\
    files s2 !! path = Some rows.
Proof.
  intros Hready Hrows Hselected Hne Hothers.
  destruct (select_ready path selected s others Hready Hselected Hothers)
    as (s1 & Hstep & Hready1 & Hfiles1 & Hhistory1 & _).
  assert (files s1 !! selected = Some others) as Hothers1
    by (by rewrite Hfiles1).
  destruct (exchange_ready selected s1 others prompt submitted outcome
              answered Hready1 Hothers1)
    as (s2 & Hrun & _ & Hfiles2 & _).
  exists s1, s2. split; [exact Hstep|]. split; [exact Hhistory1|].
  split; [exact Hrun|]. rewrite Hfiles2.
  split; [apply lookup_insert_eq|].
  by rewrite lookup_insert_ne, Hfiles1.
Qed.

Lemma two_databases_session_ready : Ready sample_path two_databases_session.
Proof.
  unfold Ready. vm_compute. repeat split. by eexists.
Defined.

Lemma turn_after_clearing_other_database_witness :
  exists s1 s2,
    step (ClearDatabase other_path false) two_databases_session = Ok s1 /\
    ChatApp.database_path (app s1) = Some other_path /\
    run (exchange "hello" "03-11-2026 10:00:00" (Returns "world")
           "03-11-2026 10:00:07") s1 = Ok s2 /\
    files s2 !! sample_path
    = Some ([] ++ [turn_row ("hello", "03-11-2026 10:00:00", Returns "world",
                             "03-11-2026 10:00:07")]) /\
    files s2 !! other_path
    = Some (if false then []
            else [("02-11-2026 09:00:04", "helpful assistant", "first idea",
                   "noted")]).
Proof.
  apply (turn_after_clearing_other_database sample_path other_path false
           two_databases_session []
           [("02-11-2026 09:00:04", "helpful assistant", "first idea",
             "noted")]
           "hello" "03-11-2026 10:00:00" (Returns "world")
           "03-11-2026 10:00:07" two_databases_session_ready).
  - vm_compute. reflexivity.
  - reflexivity.
  - discriminate.
  - vm_compute. reflexivity.
Defined.

Lemma turn_after_selecting_other_database_witness :
  exists s1 s2,
    step (SelectDatabase other_path) two_databases_session = Ok s1 /\
    ChatApp.message_history (app s1)
    = map message_of_row
        [("02-11-2026 09:00:04", "helpful assistant", "first idea", "noted")] /\
    run (exchange "hello" "03-11-2026 10:00:00" (Returns "world")
           "03-11-2026 10:00:07") s1 = Ok s2 /\
    files s2 !! other_path
    = Some ([("02-11-2026 09:00:04", "helpful assistant", "first idea",
              "noted")]
            ++ [turn_row ("hello", "03-11-2026 10:00:00", Returns "world",
                          "03-11-2026 10:00:07")]) /\
    files s2 !! sample_path = Some [].
Proof.
  apply (turn_after_selecting_other_database sample_path other_path
           two_databases_session []
           [("02-11-2026 09:00:04", "helpful assistant", "first idea",
             "noted")]
           "hello" "03-11-2026 10:00:00" (Returns "world")
           "03-11-2026 10:00:07" two_databases_session_ready).
  - vm_compute. reflexivity.
  - reflexivity.
  - discriminate.
  - vm_compute. reflexivity.
Defined.

(** ** Centering the window *)


(** ** What an exchange shows *)

(** In a ready session an exchange adds exactly two texts to the output
    widget of the window, each followed by two line feeds: the notice that
    the prompt is submitted, then the provider's text or, when the call
    raised, the error message.  (What the worker writes on a failure goes
    to a widget of its own, not to the window.) *)
Theorem exchange_shows_two_texts (path : string) (s : System)
    (rows : list Sqlite.Row) (prompt submitted : string)
    (outcome : Completion) (answered : string) :
  Ready path s ->
  files s !! path = Some rows ->
  exists s',
    run (exchange prompt submitted outcome answered) s = Ok s' /\
    ChatApp.output_text (app s')
    = ChatApp.output_text (app s)
      ++ ["Prompt is submitted. Wait for response generation." +:+ LF +:+ LF;
          match outcome with
          | Returns text => text
          | Raises str_e => "Error generating response: " +:+ str_e
          end +:+ LF +:+ LF].
Proof.
  intros Hready Hrows.
  destruct (exchange_ready path s rows prompt submitted outcome answered
              Hready Hrows) as (s' & Hrun & _ & _ & _ & Houtput & _).
  exists s'. split; [exact Hrun|]. rewrite Houtput.
  destruct outcome as [text|str_e]; cbn [emitted].
  - by rewrite overall_message_list_of_str.
  - by rewrite overall_message_singleton.
Qed.

Lemma exchange_shows_two_texts_witness :
  exists s',
    run (exchange "hello" "03-11-2026 10:00:00" (Raises "timed out")
           "03-11-2026 10:00:30") sample_session = Ok s' /\
    ChatApp.output_text (app s')
    = ChatApp.output_text (app sample_session)
      ++ ["Prompt is submitted. Wait for response generation." +:+ LF +:+ LF;
          match Raises "timed out" with
          | Returns text => text
          | Raises str_e => "Error generating response: " +:+ str_e
          end +:+ LF +:+ LF].
Proof.
  apply (exchange_shows_two_texts sample_path sample_session []
           "hello" "03-11-2026 10:00:00" (Raises "timed out")
           "03-11-2026 10:00:30" sample_session_ready).
  reflexivity.
Defined.
